(** * rosdep2.platforms.pip: the pip installer adapter

    A shallow embedding of [src/rosdep2/platforms/pip.py] and the
    properties of its command locator ([get_pip_command]), its PEP 668
    policy check ([externally_managed_installable]), its detector
    ([pip_detect]) and its installer ([PipInstaller]).

    A Python [str] is a [string] whose characters are the code points
    below 256, one [ascii] per code point (not an encoding: a string
    with a code point from 256 on is outside the model); a [bytes]
    object is a [string] of its bytes.  [os.environ] is a finite map;
    the interpreter, the process table and the configuration files form
    a read-only [World]; every function that touches the outside runs
    in a small monad that records the effects it performs and may raise
    a Python exception. *)

From Stdlib Require Import ZArith Ascii.
From stdpp Require Import base strings gmap list.

Local Open Scope string_scope.
Local Open Scope list_scope.

(** ** Python string methods *)

Module Py.

(** [s.startswith(p)] *)
Fixpoint startswith (p s : string) : bool :=
  match p, s with
  | EmptyString, _ => true
  | String _ _, EmptyString => false
  | String a p', String b s' =>
      if decide (a = b) then startswith p' s' else false
  end.

(** One left-to-right pass of [s.split(sep)] for a non-empty [sep]:
    the piece under construction and the pieces after it.  [skip]
    counts the characters of a separator still to be stepped over. *)
Fixpoint split_go (sep : string) (skip : nat) (s : string)
  : string * list string :=
  match s with
  | EmptyString => (EmptyString, [])
  | String c s' =>
      match skip with
      | S k => split_go sep k s'
      | O =>
          if startswith sep s
          then (EmptyString,
                let '(h, t) := split_go sep (String.length sep - 1) s' in
                h :: t)
          else let '(h, t) := split_go sep 0 s' in (String c h, t)
      end
  end.

(** [s.split(sep)], [sep] a non-empty literal. *)
Definition split (sep s : string) : list string :=
  let '(h, t) := split_go sep 0 s in h :: t.

(** [l[0]] on a list of strings: [IndexError] is the [None] case. *)
Definition item0 (l : list string) : option string := head l.

(** [c.lower()] for a code point below 256: the letters A-Z and the
    capitals U+00C0 to U+00DE, the sign U+00D7 excepted, move up by 32;
    every other code point is left as it is. *)
Definition lower_ascii (c : ascii) : ascii :=
  let n := nat_of_ascii c in
  if ((65 <=? n)%nat && (n <=? 90)%nat)
     || ((192 <=? n)%nat && (n <=? 222)%nat && negb (n =? 215)%nat)
  then ascii_of_nat (n + 32) else c.

(** [s.lower()] *)
Fixpoint lower (s : string) : string :=
  match s with
  | EmptyString => EmptyString
  | String c s' => String (lower_ascii c) (lower s')
  end.

(** White space of [str.strip()] among the code points below 256: TAB,
    LF, VT, FF, CR, FS, GS, RS, US, space, NEL (U+0085) and the
    no-break space (U+00A0). *)
Definition isspace (c : ascii) : bool :=
  let n := nat_of_ascii c in
  ((9 <=? n)%nat && (n <=? 13)%nat)
  || ((28 <=? n)%nat && (n <=? 32)%nat)
  || (n =? 133)%nat || (n =? 160)%nat.

(** Whitespace of [bytes.strip()]: space, TAB, LF, CR, VT, FF. *)
Definition isspace_bytes (c : ascii) : bool :=
  let n := nat_of_ascii c in
  ((9 <=? n)%nat && (n <=? 13)%nat) || (n =? 32)%nat.

Fixpoint lstrip_with (sp : ascii -> bool) (s : string) : string :=
  match s with
  | EmptyString => EmptyString
  | String c s' => if sp c then lstrip_with sp s' else s
  end.

Fixpoint rstrip_with (sp : ascii -> bool) (s : string) : string :=
  match s with
  | EmptyString => EmptyString
  | String c s' =>
      match rstrip_with sp s' with
      | EmptyString => if sp c then EmptyString else String c EmptyString
      | r => String c r
      end
  end.

(** [s.strip()] for [str] and for [bytes]. *)
Definition strip (s : string) : string :=
  rstrip_with isspace (lstrip_with isspace s).
Definition strip_bytes (s : string) : string :=
  rstrip_with isspace_bytes (lstrip_with isspace_bytes s).

(** Truth value of a string or bytes object. *)
Definition truthy (s : string) : bool :=
  match s with EmptyString => false | String _ _ => true end.

(** [x in l] on a list or tuple of strings. *)
Definition contains (x : string) (l : list string) : bool :=
  bool_decide (x ∈ l).

End Py.

(** ** pathlib on POSIX *)

(** [PurePosixPath]: the root (empty, ["/"] or ["//"]) and the parts after
    it, empty segments and ["."] segments removed. *)
Record Path := mkPath { path_root : string; path_parts : list string }.

#[global] Instance Path_eq_dec : EqDecision Path.
Proof. solve_decision. Defined.

Definition path_splitroot (s : string) : string * string :=
  match s with
  | String "/" (String "/" (String "/" r)) => ("/", String "/" (String "/" r))
  | String "/" (String "/" r) => ("//", r)
  | String "/" r => ("/", r)
  | _ => (EmptyString, s)
  end.

Definition path_segment_kept (x : string) : bool :=
  Py.truthy x && negb (bool_decide (x = ".")).

(** [Path(s)] *)
Definition Path_of (s : string) : Path :=
  let '(root, rel) := path_splitroot s in
  mkPath root (filter (fun x => Is_true (path_segment_kept x)) (Py.split "/" rel)).

(** [p / name] for a relative one-segment [name]. *)
Definition path_div (p : Path) (name : string) : Path :=
  mkPath (path_root p) (path_parts p ++ [name]).

Declare Scope path_scope.
Delimit Scope path_scope with path.
Notation "p // n" := (path_div p n) (at level 40, left associativity) : path_scope.

(** ** Exceptions, effects and the computation monad *)

Inductive exn :=
| KeyError (key : string)
| IndexError
| ValueError (msg : string)
| ParsingError (source : Path)
| MissingSectionHeaderError (source : Path)
| DuplicateSectionError (source : Path)
| DuplicateOptionError (source : Path)
| UnicodeDecodeError (source : Path)
| InterpolationDepthError (opt section rawval : string)
| InterpolationSyntaxError (opt section : string) (bad_reference : bool)
    (found : string)
| InterpolationMissingOptionError (opt section rawval reference : string)
| OSError (cmd : list string)
| InstallFailed (failure : string * string).

Inductive outcome (A : Type) :=
| Ok (a : A)
| Raise (e : exn).
Arguments Ok {A} a.
Arguments Raise {A} e.

(** How [subprocess.Popen] is told to treat the child's standard error. *)
Inductive stderr_mode := STDERR_PIPE | STDERR_STDOUT.

(** What a function does to the outside, in the order it does it. *)
Inductive event :=
| EvPopen (cmd : list string) (err : stderr_mode)
| EvExecFn (cmd : list string)
| EvReadConfig (p : Path).

(** A computation extends the trace of effects and returns or raises. *)
Definition M (A : Type) : Type := list event -> outcome A * list event.

Definition ret {A} (a : A) : M A := fun t => (Ok a, t).

Definition raise {A} (e : exn) : M A := fun t => (Raise e, t).

Definition bind {A B} (c : M A) (k : A -> M B) : M B :=
  fun t =>
    match c t with
    | (Ok a, t') => k a t'
    | (Raise e, t') => (Raise e, t')
    end.

Definition log (e : event) : M unit := fun t => (Ok tt, t ++ [e]).

(** [try: c  except E: h] where [handler e] is [Some h] for the
    exceptions the clause catches. *)
Definition try_except {A} (c : M A) (handler : exn -> option (M A)) : M A :=
  fun t =>
    match c t with
    | (Ok a, t') => (Ok a, t')
    | (Raise e, t') =>
        match handler e with
        | Some h => h t'
        | None => (Raise e, t')
        end
    end.

(** An optional value whose absence raises. *)
Definition or_raise {A} (o : option A) (e : exn) : M A :=
  match o with
  | Some a => ret a
  | None => raise e
  end.

Notation "'let*' x ':=' c 'in' k" := (bind c (fun x => k))
  (at level 10, x name, c at level 100, k at level 200).
Notation "'let*' ' p ':=' c 'in' k" := (bind c (fun x => let 'p := x in k))
  (at level 10, p pattern, c at level 100, k at level 200).

(** Running a computation from the empty trace. *)
Definition run {A} (c : M A) : outcome A * list event := c [].

(** The two ways out of the body of a [for] loop that contains [return]. *)
Inductive for_exit (R S : Type) :=
| Return (r : R)
| Fallthrough (s : S).
Arguments Return {R S} r.
Arguments Fallthrough {R S} s.

(** ** The world the module runs in *)

Inductive popen_result :=
| SpawnFails
| Exits (returncode : Z) (stdout : string).

(** An INI document as [ConfigParser] holds it: section name to option
    name to value, the entries of the [[DEFAULT]] section under the key
    ["DEFAULT"].  Option names are stored lower-cased ([optionxform]);
    values are the raw strings of the file, as [get(raw=True)] returns
    them: references such as [%(name)s] are expanded on every [get]. *)
Abbreviation ini := (gmap string (gmap string string)).

(** Why [ConfigParser.read] rejects a file it could open. *)
Inductive read_error :=
| NotParsed               (* ParsingError *)
| NoSectionHeader         (* MissingSectionHeaderError *)
| SectionTwice            (* DuplicateSectionError *)
| OptionTwice             (* DuplicateOptionError *)
| NotDecoded.             (* UnicodeDecodeError *)

(** The exception [read] raises for a file it rejects. *)
Definition read_exception (k : read_error) (source : Path) : exn :=
  match k with
  | NotParsed => ParsingError source
  | NoSectionHeader => MissingSectionHeaderError source
  | SectionTwice => DuplicateSectionError source
  | OptionTwice => DuplicateOptionError source
  | NotDecoded => UnicodeDecodeError source
  end.

(** What [ConfigParser.read] finds at a path: a file that cannot be
    opened (skipped silently), a file the parser rejects, or a document. *)
Inductive file_state :=
| NoFile
| Unparsable (k : read_error)
| Parsed (doc : ini).

Record World := mkWorld {
  environ : gmap string string;            (* os.environ *)
  sys_version0 : ascii;                    (* sys.version[0] *)
  sys_version_info : nat * nat;            (* sys.version_info[:2] *)
  sys_executable : string;                 (* sys.executable *)
  pip_importable : bool;                   (* does [import pip] succeed *)
  popen : list string -> stderr_mode -> popen_result;
  config_files : Path -> file_state
}.

(** [os.environ[key]] *)
Definition environ_item (w : World) (key : string) : M string :=
  or_raise (environ w !! key) (KeyError key).

(** [subprocess.Popen(cmd, stdout=PIPE, stderr=err)] followed by
    [communicate()]: the exit status and the captured output. *)
Definition Popen_communicate (w : World) (cmd : list string) (err : stderr_mode)
  : M (Z * string) :=
  let* _ := log (EvPopen cmd err) in
  match popen w cmd err with
  | SpawnFails => raise (OSError cmd)
  | Exits rc out => ret (rc, out)
  end.

(** Modelled from the spec: [shell_utils.read_stdout], the production
    output function, which executes the real command and reads its
    standard output as text. *)
Definition read_stdout (w : World) (cmd : list string) : M string :=
  let* '(_, out) := Popen_communicate w cmd STDERR_PIPE in
  ret out.

(** ** pip.py *)

Definition PIP_INSTALLER : string := "pip".

Definition NL : string := String (ascii_of_nat 10) EmptyString.

Definition EXTERNALLY_MANAGED_EXPLAINER : string :=
  NL +:+
  "rosdep installation of pip packages requires installing packages globally as root." +:+ NL +:+
  "When using Python >= 3.11, PEP 668 compliance requires you to allow pip to install alongside" +:+ NL +:+
  "externally managed packages using the 'break-system-packages' option." +:+ NL +:+
  "The recommeded way to set this option when using rosdep is to set the environment variable" +:+ NL +:+
  "PIP_BREAK_SYSTEM_PACKAGES=1" +:+ NL +:+
  "in your environment." +:+ NL +:+
  NL +:+
  "For more information refer to http://docs.ros.org/en/independent/api/rosdep/html/pip_and_pep_668.html" +:+ NL.

Definition is_cmd_available (w : World) (cmd : list string) : M bool :=
  try_except
    (let* '(returncode, _) := Popen_communicate w cmd STDERR_PIPE in
     ret (0 =? returncode)%Z)
    (fun e => match e with OSError _ => Some (ret false) | _ => None end).

Definition get_pip_command (w : World) : M (option (list string)) :=
  let* v := environ_item w "ROS_PYTHON_VERSION" in
  let cmd := ["pip" +:+ v] in
  let* avail := is_cmd_available w cmd in
  if avail then ret (Some cmd) else
  let* v := environ_item w "ROS_PYTHON_VERSION" in
  (* [import pip] is attempted only when the versions agree *)
  if bool_decide (v = String (sys_version0 w) EmptyString) && pip_importable w
  then ret (Some [sys_executable w; "-m"; "pip"]) else
  let* v := environ_item w "ROS_PYTHON_VERSION" in
  let cmd := ["python" +:+ v; "-m"; "pip"] in
  let* avail := is_cmd_available w cmd in
  if avail then ret (Some cmd) else
  ret None.

(** *** configparser.ConfigParser, as far as the policy check uses it *)

(** [ConfigParser.BOOLEAN_STATES] *)
Definition BOOLEAN_STATES : gmap string bool :=
  list_to_map
    [("1", true); ("yes", true); ("true", true); ("on", true);
     ("0", false); ("no", false); ("false", false); ("off", false)].

(** Reading a document into a parser that already holds [old]: the
    options of the document are added to their sections and replace the
    values of the options that were there. *)
Definition ini_update (doc old : ini) : ini :=
  union_with (fun new_sec old_sec => Some (new_sec ∪ old_sec)) doc old.

(** [parser.read(path)]: a file that cannot be opened is skipped, a file
    the parser rejects raises, a well-formed one is merged in. *)
Definition ConfigParser_read (w : World) (parser : ini) (path : Path) : M ini :=
  let* _ := log (EvReadConfig path) in
  match config_files w path with
  | NoFile => ret parser
  | Unparsable k => raise (read_exception k path)
  | Parsed doc => ret (ini_update doc parser)
  end.

(** [parser._unify_values(section, None)]: the options [get] looks in,
    those of the section shadowing the defaults; the section must exist
    or be the default section. *)
Definition ConfigParser_unify_values (parser : ini) (section : string)
  : option (gmap string string) :=
  match parser !! section with
  | None =>
      if bool_decide (section = "DEFAULT")
      then Some (default ∅ (parser !! "DEFAULT"))
      else None
  | Some sectiondict =>
      Some (sectiondict ∪ default ∅ (parser !! "DEFAULT"))
  end.

(** The raw value [parser.get(section, option, raw=True)] finds. *)
Definition ConfigParser_lookup (parser : ini) (section opt : string)
  : option string :=
  match ConfigParser_unify_values parser section with
  | None => None
  | Some d => d !! Py.lower opt
  end.

(** [sep in s] on strings. *)
Fixpoint str_contains (sep s : string) : bool :=
  Py.startswith sep s
  || match s with
     | EmptyString => false
     | String _ s' => str_contains sep s'
     end.

(** **** BasicInterpolation *)

Definition MAX_INTERPOLATION_DEPTH : nat := 10.

Definition outcome_map {A B} (f : A -> B) (o : outcome A) : outcome B :=
  match o with
  | Ok a => Ok (f a)
  | Raise e => Raise e
  end.

Definition outcome_bind {A B} (o : outcome A) (k : A -> outcome B) : outcome B :=
  match o with
  | Ok a => k a
  | Raise e => Raise e
  end.

(** Where the [while rest] loop of [_interpolate_some] stands in the
    text: in plain text, just after a [%], inside the name of a
    reference opened by [%(], or after the [)] that closes the name.
    [found] is the text from the [%] on, which the syntax errors report. *)
Inductive scan_state :=
| InText
| AfterPercent (found : string)
| InName (found name : string)
| AfterName (found name : string).

(** The [while rest] loop of [_interpolate_some], one character at a
    time, returning what the loop appends to [accum].  [%%] gives [%];
    [%(name)s], the name running to the first [)] and not empty, gives
    the value of [name.lower()] in [map], expanded by [recur] when it
    holds a [%]; every other use of [%] is a syntax error. *)
Fixpoint interpolate_scan (recur : string -> outcome string)
    (opt section rawval : string) (map : gmap string string)
    (st : scan_state) (rest : string) : outcome string :=
  match rest with
  | EmptyString =>
      match st with
      | InText => Ok EmptyString
      | AfterPercent found =>
          Raise (InterpolationSyntaxError opt section false found)
      | InName found _ | AfterName found _ =>
          Raise (InterpolationSyntaxError opt section true found)
      end
  | String c rest' =>
      match st with
      | InText =>
          if bool_decide (c = "%"%char)
          then interpolate_scan recur opt section rawval map (AfterPercent rest) rest'
          else outcome_map (String c)
                 (interpolate_scan recur opt section rawval map InText rest')
      | AfterPercent found =>
          if bool_decide (c = "%"%char)
          then outcome_map (String c)
                 (interpolate_scan recur opt section rawval map InText rest')
          else if bool_decide (c = "("%char)
          then interpolate_scan recur opt section rawval map
                 (InName found EmptyString) rest'
          else Raise (InterpolationSyntaxError opt section false found)
      | InName found name =>
          if bool_decide (c = ")"%char)
          then match name with
               | EmptyString =>
                   Raise (InterpolationSyntaxError opt section true found)
               | String _ _ =>
                   interpolate_scan recur opt section rawval map
                     (AfterName found name) rest'
               end
          else interpolate_scan recur opt section rawval map
                 (InName found (name +:+ String c EmptyString)) rest'
      | AfterName found name =>
          if bool_decide (c = "s"%char)
          then let var := Py.lower name in
               match map !! var with
               | None =>
                   Raise (InterpolationMissingOptionError opt section rawval var)
               | Some v =>
                   outcome_bind (if str_contains "%" v then recur v else Ok v)
                     (fun expanded =>
                        outcome_map (String.append expanded)
                          (interpolate_scan recur opt section rawval map InText rest'))
               end
          else Raise (InterpolationSyntaxError opt section true found)
      end
  end.

(** [_interpolate_some] at depth [MAX_INTERPOLATION_DEPTH + 1 - fuel]:
    beyond the maximal depth it raises, otherwise it scans [rest]. *)
Fixpoint interpolate_some (fuel : nat) (opt section rawval : string)
    (map : gmap string string) (rest : string) : outcome string :=
  match fuel with
  | O => Raise (InterpolationDepthError opt section rawval)
  | S fuel' =>
      interpolate_scan (interpolate_some fuel' opt section rawval map)
        opt section rawval map InText rest
  end.

(** [BasicInterpolation.before_get(parser, section, option, value, map)] *)
Definition before_get (section opt value : string) (map : gmap string string)
  : outcome string :=
  interpolate_some MAX_INTERPOLATION_DEPTH opt section value map value.

(** A result or an exception as a computation without effects. *)
Definition lift {A} (o : outcome A) : M A := fun t => (o, t).

(** [parser.getboolean(section, option, fallback=fallback)]: the fallback
    covers a missing section or option; the value found is expanded and
    then converted, and neither step is covered by the fallback. *)
Definition ConfigParser_getboolean (parser : ini) (section opt : string)
    (fallback : bool) : M bool :=
  match ConfigParser_unify_values parser section with
  | None => ret fallback
  | Some d =>
      let opt := Py.lower opt in
      match d !! opt with
      | None => ret fallback
      | Some value =>
          let* value := lift (before_get section opt value d) in
          or_raise (BOOLEAN_STATES !! Py.lower value)
                   (ValueError ("Not a boolean: " +:+ value))
      end
  end.

(** *** The policy check *)

(** [sys.version_info < (major, minor)] *)
Definition version_info_lt (v bound : nat * nat) : bool :=
  (v.1 <? bound.1)%nat || ((v.1 =? bound.1)%nat && (v.2 <? bound.2)%nat).

(** The condition of the second [if] of [externally_managed_installable]. *)
Definition break_system_packages_env (w : World) : bool :=
  match environ w !! "PIP_BREAK_SYSTEM_PACKAGES" with
  | Some v => Py.contains (Py.lower v) ["yes"; "1"; "true"]
  | None => false
  end.

(** [Path(xdg_dir) / 'pip' / 'pip.conf'] *)
Definition pip_config_file (xdg_dir : string) : Path :=
  (Path_of xdg_dir // "pip" // "pip.conf")%path.

(** The [for xdg_dir in ...] loop: one parser is read into over and
    over, and the loop returns as soon as the parser says true. *)
Fixpoint xdg_config_loop (w : World) (pip_config : ini) (dirs : list string)
  : M (for_exit bool ini) :=
  match dirs with
  | [] => ret (Fallthrough pip_config)
  | xdg_dir :: rest =>
      let* pip_config := ConfigParser_read w pip_config (pip_config_file xdg_dir) in
      let* b := ConfigParser_getboolean pip_config "install" "break-system-packages" false in
      if b then ret (Return true) else xdg_config_loop w pip_config rest
  end.

Definition externally_managed_installable (w : World) : M bool :=
  if version_info_lt (sys_version_info w) (3, 11) then ret true else
  if break_system_packages_env w then ret true else
  let pip_config : ini := ∅ in
  let* r :=
    match environ w !! "XDG_CONFIG_DIRS" with
    | Some dirs => xdg_config_loop w pip_config (Py.split ":" dirs)
    | None => ret (Fallthrough pip_config)
    end in
  match r with
  | Return b => ret b
  | Fallthrough pip_config =>
      let fallback_config := Path_of "/etc/pip.conf" in
      let* pip_config := ConfigParser_read w pip_config fallback_config in
      let* b := ConfigParser_getboolean pip_config "install" "break-system-packages" false in
      if b then ret true else
      ret false
  end.

(** *** The detector *)

(** The loop over the lines of [pip freeze]. *)
Fixpoint freeze_loop (pkgs pkg_list ret_list : list string) : M (list string) :=
  match pkg_list with
  | [] => ret ret_list
  | pkg :: rest =>
      let pkg_row := Py.split "==" pkg in
      let* name := or_raise (Py.item0 pkg_row) IndexError in
      if Py.contains name pkgs
      then freeze_loop pkgs rest (ret_list ++ [name])
      else freeze_loop pkgs rest ret_list
  end.

(** The loop over the candidates [pip freeze] did not list. *)
Fixpoint show_loop (w : World) (pip_cmd todo ret_list : list string)
  : M (list string) :=
  match todo with
  | [] => ret ret_list
  | pkg :: rest =>
      let* base := or_raise (Py.item0 (Py.split "@" pkg)) IndexError in
      let* '(returncode, output) :=
        Popen_communicate w (pip_cmd ++ ["show"; Py.strip base]) STDERR_STDOUT in
      let output := Py.strip_bytes output in
      if (returncode =? 0)%Z && Py.truthy output
      then show_loop w pip_cmd rest (ret_list ++ [pkg])
      else show_loop w pip_cmd rest ret_list
  end.

(** An injected [exec_fn] is a function of the command that returns
    text; calling it is recorded. *)
Definition call_exec_fn (f : list string -> string) (cmd : list string) : M string :=
  let* _ := log (EvExecFn cmd) in
  ret (f cmd).

Definition pip_detect (w : World) (pkgs : list string)
    (exec_fn : option (list string -> string)) : M (list string) :=
  let* pip_cmd := get_pip_command w in
  match pip_cmd with
  | None | Some [] => ret []
  | Some pip_cmd =>
      let '(exec_fn, fallback_to_pip_show) :=
        match exec_fn with
        | None => (read_stdout w, true)
        | Some f => (call_exec_fn f, false)
        end in
      let* out := exec_fn (pip_cmd ++ ["freeze"]) in
      let pkg_list := Py.split NL out in
      let* ret_list := freeze_loop pkgs pkg_list [] in
      if fallback_to_pip_show
      then show_loop w pip_cmd
             (filter (fun p => ¬ Is_true (Py.contains p ret_list)) pkgs) ret_list
      else ret ret_list
  end.

(** *** The installer *)

(** The state of a [PackageManagerInstaller] that this module reads and
    writes. *)
Record PackageManagerInstaller := mkInstaller {
  as_root : bool;
  sudo_command : string
}.

(** [PipInstaller.__init__], applied to the object as the constructor of
    the base class leaves it. *)
Definition PipInstaller__init__ (self : PackageManagerInstaller)
  : PackageManagerInstaller :=
  if as_root self && negb (bool_decide (sudo_command self = EmptyString))
  then mkInstaller (as_root self)
         (sudo_command self +:+ " --preserve-env=PIP_BREAK_SYSTEM_PACKAGES")
  else self.

Section Installer.

(** The two methods [PipInstaller] inherits from the base class, which
    lives in [rosdep2/installers.py]: the packages among [resolved] that
    still have to be installed, and the privilege-elevation wrapper. *)
Variable get_packages_to_install :
  PackageManagerInstaller -> World -> list string -> bool -> M (list string).
Variable elevate_priv : PackageManagerInstaller -> list string -> list string.

Definition get_install_command (self : PackageManagerInstaller) (w : World)
    (resolved : list string) (interactive reinstall quiet : bool)
  : M (list (list string)) :=
  let* pip_cmd := get_pip_command w in
  match pip_cmd with
  | None | Some [] => raise (InstallFailed (PIP_INSTALLER, "pip is not installed"))
  | Some pip_cmd =>
      let* installable := externally_managed_installable w in
      if negb installable
      then raise (InstallFailed (PIP_INSTALLER, EXTERNALLY_MANAGED_EXPLAINER))
      else
        let* packages := get_packages_to_install self w resolved reinstall in
        match packages with
        | [] => ret []
        | _ :: _ =>
            let cmd := pip_cmd ++ ["install"; "-U"] in
            let cmd := if quiet then cmd ++ ["-q"] else cmd in
            let cmd := if reinstall then cmd ++ ["-I"] else cmd in
            ret (map (fun p => elevate_priv self (cmd ++ [p])) packages)
        end
  end.

End Installer.

(** *** The version report *)

(** What [importlib_metadata.version] gives: the version, or the lookup
    error that names the distribution it did not find. *)
Inductive metadata_outcome (A : Type) :=
| Found (a : A)
| PackageNotFoundError (name : string).
Arguments Found {A} a.
Arguments PackageNotFoundError {A} name.

(** [importlib_metadata.version(name)] over the installed distributions,
    name to version. *)
Definition importlib_metadata_version (installed : gmap string string)
    (name : string) : metadata_outcome string :=
  match installed !! name with
  | Some version => Found version
  | None => PackageNotFoundError name
  end.

(** [PipInstaller.get_version_strings] *)
Definition get_version_strings (installed : gmap string string)
  : metadata_outcome (list string) :=
  match importlib_metadata_version installed "pip" with
  | PackageNotFoundError name => PackageNotFoundError name
  | Found pip_version =>
      match importlib_metadata_version installed "setuptools" with
      | PackageNotFoundError name => PackageNotFoundError name
      | Found setuptools_version =>
          let version_strings :=
            ["pip " +:+ pip_version; "setuptools " +:+ setuptools_version] in
          Found version_strings
      end
  end.

(** ** Vocabulary of the properties *)

(** The value a document gives [break-system-packages] in a section. *)
Definition key_in (doc : ini) (section : string) : option string :=
  doc !! section ≫= (fun sec => sec !! "break-system-packages").

(** A document defines the key when its [[install]] section sets it, or
    its [[DEFAULT]] section does (whose entries every section inherits). *)
Definition defines_key (doc : ini) : Prop :=
  is_Some (key_in doc "install") ∨ is_Some (key_in doc "DEFAULT").

(** Every value a document gives the key is a boolean literal. *)
Definition boolean_valued (doc : ini) : Prop :=
  forall section v,
    section = "install" ∨ section = "DEFAULT" ->
    key_in doc section = Some v -> is_Some (BOOLEAN_STATES !! Py.lower v).

(** A file that is absent, or well-formed without the key. *)
Definition lacks_key (st : file_state) : Prop :=
  match st with
  | NoFile => True
  | Unparsable _ => False
  | Parsed doc => ¬ defines_key doc
  end.

(** A file that is absent, or well-formed with boolean literals for the
    raw values of the key (so none of them holds a [%]). *)
Definition well_formed (st : file_state) : Prop :=
  match st with
  | NoFile => True
  | Unparsable _ => False
  | Parsed doc => boolean_valued doc
  end.

(** The directories of [XDG_CONFIG_DIRS], in list order. *)
Definition xdg_dirs (w : World) : list string :=
  match environ w !! "XDG_CONFIG_DIRS" with
  | Some dirs => Py.split ":" dirs
  | None => []
  end.

(** The files the policy check may read, in the order it reads them. *)
Definition config_paths (w : World) : list Path :=
  map pip_config_file (xdg_dirs w) ++ [Path_of "/etc/pip.conf"].

(** The reading of the policy check that lets the first file defining
    the key under [[install]] decide: the value found there, if any file
    of the list defines it. *)
Fixpoint spec_first_defining_value (w : World) (paths : list Path) : option string :=
  match paths with
  | [] => None
  | p :: rest =>
      match config_files w p with
      | Parsed doc =>
          match key_in doc "install" with
          | Some v => Some v
          | None => spec_first_defining_value w rest
          end
      | _ => spec_first_defining_value w rest
      end
  end.

(** The reading of the detector that compares base names on both sides:
    a candidate matches a freeze line when their parts before the first
    [==] agree, and the candidate as requested is what is reported. *)
Definition base_name (s : string) : string := (Py.split_go "==" 0 s).1.


(** The reads of the files of a list of directories, in list order. *)
Definition read_events (dirs : list string) : list event :=
  map (fun d => EvReadConfig (pip_config_file d)) dirs.

(** An event of the command locator: a probe of a command. *)
Definition is_probe (e : event) : Prop :=
  match e with
  | EvPopen _ STDERR_PIPE => True
  | _ => False
  end.

(** The install command for one package, before privilege elevation. *)
Definition install_tokens (pip_cmd : list string) (quiet reinstall : bool)
    (p : string) : list string :=
  pip_cmd ++ ["install"; "-U"]
    ++ (if quiet then ["-q"] else [])
    ++ (if reinstall then ["-I"] else [])
    ++ [p].

(** *** The cumulative reading of a list of files *)

(** The value a file gives the key in a section, if it is a document
    that does. *)
Definition file_key (st : file_state) (section : string) : option string :=
  match st with
  | Parsed doc => key_in doc section
  | _ => None
  end.

(** The file is a document with an [[install]] section. *)
Definition file_has_install (st : file_state) : bool :=
  match st with
  | Parsed doc => bool_decide (is_Some (doc !! "install"))
  | _ => false
  end.

(** The value the key has in a section once the files of [paths] have
    been read in list order: the one set by the last file that sets it. *)
Fixpoint last_setting (w : World) (section : string) (paths : list Path)
  : option string :=
  match paths with
  | [] => None
  | p :: rest =>
      match last_setting w section rest with
      | Some v => Some v
      | None => file_key (config_files w p) section
      end
  end.

(** Some file of [paths] has an [[install]] section. *)
Definition install_section_seen (w : World) (paths : list Path) : bool :=
  existsb (fun p => file_has_install (config_files w p)) paths.

(** The raw value of [install.break-system-packages] once the files of
    [paths] have been read in list order into one parser: none until some
    file has an [[install]] section, then the last setting under
    [[install]], or else the last setting under [[DEFAULT]]. *)
Definition cumulative_value (w : World) (paths : list Path) : option string :=
  if install_section_seen w paths
  then match last_setting w "install" paths with
       | Some v => Some v
       | None => last_setting w "DEFAULT" paths
       end
  else None.

(** That value is a boolean literal for true. *)
Definition reads_true (w : World) (paths : list Path) : bool :=
  match cumulative_value w paths with
  | Some v => bool_decide (BOOLEAN_STATES !! Py.lower v = Some true)
  | None => false
  end.

(** The parser holds what reading the files of [seen] in order gives. *)
Definition represents (w : World) (seen : list Path) (parser : ini) : Prop :=
  (forall section, key_in parser section = last_setting w section seen)
  /\ (is_Some (parser !! "install") <-> install_section_seen w seen = true).

(** The policy check after its two shortcuts, as one chain over the
    files of [config_paths]: read, look the key up, return at true. *)
Fixpoint policy_chain (w : World) (parser : ini) (paths : list Path) : M bool :=
  match paths with
  | [] => ret false
  | p :: rest =>
      let* parser := ConfigParser_read w parser p in
      let* b := ConfigParser_getboolean parser "install" "break-system-packages" false in
      if b then ret true else policy_chain w parser rest
  end.

(** The world in which every file that cannot be opened is an empty
    file instead. *)
Definition with_missing_as_empty (w : World) : World :=
  mkWorld (environ w) (sys_version0 w) (sys_version_info w) (sys_executable w)
    (pip_importable w) (popen w)
    (fun p => match config_files w p with
              | NoFile => Parsed ∅
              | st => st
              end).

(** *** Spellings *)

(** The code points that [lower] takes to [d]: [d] itself unless it is
    a capital, and the capital of [d] when [d] is a small letter (a-z,
    U+00E0 to U+00FE without U+00F7). *)
Definition lowers_to (d : ascii) : list ascii :=
  let n := nat_of_ascii d in
  (if ((65 <=? n)%nat && (n <=? 90)%nat)
      || ((192 <=? n)%nat && (n <=? 222)%nat && negb (n =? 215)%nat)
   then [] else [d])
  ++ (if ((97 <=? n)%nat && (n <=? 122)%nat)
         || ((224 <=? n)%nat && (n <=? 254)%nat && negb (n =? 247)%nat)
      then [ascii_of_nat (n - 32)] else []).

(** The strings that differ from [s] in the case of letters only. *)
Fixpoint case_variants (s : string) : list string :=
  match s with
  | EmptyString => [EmptyString]
  | String d rest =>
      c ← lowers_to d; v ← case_variants rest; [String c v]
  end.

(** The values of PIP_BREAK_SYSTEM_PACKAGES that permit: yes, 1 and
    true in every mix of upper and lower case. *)
Definition truthy_spellings : list string :=
  ["yes"; "yeS"; "yEs"; "yES"; "Yes"; "YeS"; "YEs"; "YES";
   "1";
   "true"; "truE"; "trUe"; "trUE"; "tRue"; "tRuE"; "tRUe"; "tRUE";
   "True"; "TruE"; "TrUe"; "TrUE"; "TRue"; "TRuE"; "TRUe"; "TRUE"].

(** ** Sample worlds *)

(** The freeze text of the detector's example. *)
Definition freeze_foo_qux : string := "foo==1.0" +:+ NL +:+ "qux==2.0".

Definition no_files : Path -> file_state := fun _ => NoFile.

(** Only [pip3] can be started: alone it exits with status 0, [freeze]
    lists foo and qux, [show] knows no package. *)
Definition popen_pip3 (cmd : list string) (err : stderr_mode) : popen_result :=
  match cmd with
  | ["pip3"] => Exits 0 EmptyString
  | ["pip3"; "freeze"] => Exits 0 freeze_foo_qux
  | ["pip3"; "show"; _] => Exits 1 "WARNING: Package(s) not found"
  | _ => SpawnFails
  end.

(** Nothing can be started. *)
Definition popen_nothing (cmd : list string) (err : stderr_mode) : popen_result :=
  SpawnFails.

Definition install_doc (value : string) : ini :=
  {[ "install" := {[ "break-system-packages" := value ]} ]}.

(** Python 3.12 with [pip3] on the path and the given environment and
    configuration files. *)
Definition py312 (env : gmap string string) (files : Path -> file_state) : World :=
  mkWorld env "3" (3, 12) "/usr/bin/python3" false popen_pip3 files.

Definition ros3 : gmap string string := {[ "ROS_PYTHON_VERSION" := "3" ]}.

(** No pip anywhere. *)
Definition world_without_pip : World :=
  mkWorld ros3 "3" (3, 12) "/usr/bin/python3" false popen_nothing no_files.

(** [/a/pip/pip.conf] says false, [/b/pip/pip.conf] says true. *)
Definition files_false_then_true (p : Path) : file_state :=
  if bool_decide (p = pip_config_file "/a") then Parsed (install_doc "false")
  else if bool_decide (p = pip_config_file "/b") then Parsed (install_doc "true")
  else NoFile.

Definition world_false_then_true : World :=
  py312 (<[ "XDG_CONFIG_DIRS" := "/a:/b" ]> ros3) files_false_then_true.

(** [/a/pip/pip.conf] says false, [/etc/pip.conf] says True. *)
Definition world_false_then_etc_true : World :=
  py312 (<[ "XDG_CONFIG_DIRS" := "/a" ]> ros3)
    (fun p => if bool_decide (p = pip_config_file "/a") then Parsed (install_doc "false")
              else if bool_decide (p = Path_of "/etc/pip.conf") then Parsed (install_doc "True")
              else NoFile).

(** [/etc/pip.conf] exists and is not an INI file. *)
Definition world_unparsable : World :=
  py312 ros3 (fun p => if bool_decide (p = Path_of "/etc/pip.conf")
                       then Unparsable NotParsed else NoFile).

(** [/etc/pip.conf] sets the key to a word that is no boolean. *)
Definition world_not_boolean : World :=
  py312 ros3 (fun p => if bool_decide (p = Path_of "/etc/pip.conf")
                       then Parsed (install_doc "maybe") else NoFile).

(** [/a/pip/pip.conf] says true; [/etc/pip.conf] has text before its
    first section header. *)
Definition world_true_then_broken : World :=
  py312 (<[ "XDG_CONFIG_DIRS" := "/a" ]> ros3)
    (fun p => if bool_decide (p = pip_config_file "/a") then Parsed (install_doc "true")
              else if bool_decide (p = Path_of "/etc/pip.conf")
                   then Unparsable NoSectionHeader
              else NoFile).

(** Every file of the list says false. *)
Definition world_all_false : World :=
  py312 (<[ "XDG_CONFIG_DIRS" := "/a:/b" ]> ros3)
    (fun p => if bool_decide (p = pip_config_file "/a") then Parsed (install_doc "false")
              else if bool_decide (p = pip_config_file "/b") then Parsed (install_doc "no")
              else if bool_decide (p = Path_of "/etc/pip.conf") then Parsed (install_doc "0")
              else NoFile).

(** [/etc/pip.conf] sets the key to [1%]. *)
Definition world_percent_value : World :=
  py312 ros3 (fun p => if bool_decide (p = Path_of "/etc/pip.conf")
                       then Parsed (install_doc "1%") else NoFile).

(** An [[install]] section whose key refers to its option [x]. *)
Definition reference_doc (x : string) : ini :=
  {[ "install" := {[ "break-system-packages" := "%(x)s"; "x" := x ]} ]}.

(** An [[install]] section that sets [x] only. *)
Definition x_doc (x : string) : ini := {[ "install" := {[ "x" := x ]} ]}.

(** [/a/pip/pip.conf] has [break-system-packages = %(x)s] and
    [x = false]; [/b/pip/pip.conf] sets [x] to the given value. *)
Definition world_reference_then (x : string) : World :=
  py312 (<[ "XDG_CONFIG_DIRS" := "/a:/b" ]> ros3)
    (fun p => if bool_decide (p = pip_config_file "/a") then Parsed (reference_doc "false")
              else if bool_decide (p = pip_config_file "/b") then Parsed (x_doc x)
              else NoFile).

(** [/b/pip/pip.conf] sets [x = false] under [[install]];
    [/a/pip/pip.conf], read after it, sets [x = true] under [[DEFAULT]]
    and [break-system-packages = %(x)s] under [[install]]. *)
Definition world_x_false_then_default_true : World :=
  py312 (<[ "XDG_CONFIG_DIRS" := "/b:/a" ]> ros3)
    (fun p => if bool_decide (p = pip_config_file "/b") then Parsed (x_doc "false")
              else if bool_decide (p = pip_config_file "/a")
                   then Parsed {[ "DEFAULT" := {[ "x" := "true" ]};
                                  "install" := {[ "break-system-packages" := "%(x)s" ]} ]}
              else NoFile).

(** A base-class instance to run the installer with.
    Modelled from the spec: the packages to install are the requested
    ones the detector does not report, or all of them under [reinstall];
    elevation puts the words of the sudo command in front. *)
Definition sample_get_packages_to_install (self : PackageManagerInstaller)
    (w : World) (resolved : list string) (reinstall : bool) : M (list string) :=
  if reinstall then ret resolved else
  match resolved with
  | [] => ret []
  | _ =>
      let* detected := pip_detect w resolved None in
      ret (filter (fun x => ¬ Is_true (Py.contains x detected)) resolved)
  end.

Definition sample_elevate_priv (self : PackageManagerInstaller)
    (cmd : list string) : list string :=
  (if as_root self then Py.split " " (sudo_command self) else []) ++ cmd.

(** ** Further vocabulary *)

(** A command starts and exits with status 0. *)
Definition cmd_succeeds (w : World) (cmd : list string) : bool :=
  match popen w cmd STDERR_PIPE with
  | SpawnFails => false
  | Exits returncode _ => (0 =? returncode)%Z
  end.

(** Every character of a string satisfies a test. *)
Fixpoint all_chars (sp : ascii -> bool) (s : string) : bool :=
  match s with
  | EmptyString => true
  | String c s' => sp c && all_chars sp s'
  end.

(** The no-break space, U+00A0. *)
Definition NBSP : string := String (ascii_of_nat 160) EmptyString.

(** The [pip show] command the show pass runs for a candidate. *)
Definition show_command (pip_cmd : list string) (pkg : string) : list string :=
  pip_cmd ++ ["show"; Py.strip (Py.split_go "@" 0 pkg).1].

Definition show_event (pip_cmd : list string) (pkg : string) : event :=
  EvPopen (show_command pip_cmd pkg) STDERR_STDOUT.

(** [pip show] for a candidate exits with status 0 and prints something
    besides white space. *)
Definition show_detects (w : World) (pip_cmd : list string) (pkg : string) : bool :=
  match popen w (show_command pip_cmd pkg) STDERR_STDOUT with
  | SpawnFails => false
  | Exits returncode output =>
      (returncode =? 0)%Z && Py.truthy (Py.strip_bytes output)
  end.

(** [pip show] for a candidate can be started. *)
Definition show_starts (w : World) (pip_cmd : list string) (pkg : string) : Prop :=
  popen w (show_command pip_cmd pkg) STDERR_STDOUT <> SpawnFails.

(** The three exceptions of [BasicInterpolation]. *)
Definition is_interpolation_error (e : exn) : Prop :=
  match e with
  | InterpolationDepthError _ _ _
  | InterpolationSyntaxError _ _ _ _
  | InterpolationMissingOptionError _ _ _ _ => True
  | _ => False
  end.

(** The exceptions of the policy check: the one [read] raises for a
    file of the list it rejects, an interpolation error for the value
    of the key, and [ValueError] for an expanded value that is no
    boolean. *)
Definition policy_exception (w : World) (e : exn) : Prop :=
  (exists p k, p ∈ config_paths w /\ config_files w p = Unparsable k
               /\ e = read_exception k p)
  \/ is_interpolation_error e
  \/ (exists v, e = ValueError ("Not a boolean: " +:+ v)
                /\ BOOLEAN_STATES !! Py.lower v = None).

(** The options [get] looks in for the [[install]] section. *)
Definition install_options (parser : ini) : gmap string string :=
  default ∅ (ConfigParser_unify_values parser "install").

(** A file sets the key to a value in a section. *)
Definition sets_key (st : file_state) (section v : string) : Prop :=
  exists doc, st = Parsed doc /\ key_in doc section = Some v.

(** A file sets the key to a true value in a section. *)
Definition sets_true (st : file_state) (section : string) : Prop :=
  exists doc v,
    st = Parsed doc /\ key_in doc section = Some v
    /\ BOOLEAN_STATES !! Py.lower v = Some true.

(** Every value the parser holds for the key was set by a file among
    [ps]. *)
Definition sourced (w : World) (ps : list Path) (parser : ini) : Prop :=
  forall section v,
    key_in parser section = Some v ->
    exists p doc,
      p ∈ ps /\ config_files w p = Parsed doc /\ key_in doc section = Some v.

(** A file that is absent, or well-formed with boolean values for the
    key and none of them under [[DEFAULT]]. *)
Definition plain (st : file_state) : Prop :=
  well_formed st
  /\ forall doc, st = Parsed doc -> key_in doc "DEFAULT" = None.

(** A file that is absent, or well-formed without an [[install]] section. *)
Definition lacks_install_section (st : file_state) : Prop :=
  match st with
  | NoFile => True
  | Unparsable _ => False
  | Parsed doc => doc !! "install" = None
  end.

(** [pip show] knows bar only; [freeze] lists foo and qux. *)
Definition popen_pip3_shows_bar (cmd : list string) (err : stderr_mode) : popen_result :=
  match cmd with
  | ["pip3"] => Exits 0 EmptyString
  | ["pip3"; "freeze"] => Exits 0 freeze_foo_qux
  | ["pip3"; "show"; "bar"] => Exits 0 "Name: bar"
  | ["pip3"; "show"; "gone"] => SpawnFails
  | ["pip3"; "show"; _] => Exits 1 "WARNING: Package(s) not found"
  | _ => SpawnFails
  end.

Definition world_shows_bar : World :=
  mkWorld ros3 "3" (3, 12) "/usr/bin/python3" false popen_pip3_shows_bar no_files.

(** Python 3.10: the policy does not apply; [/etc/pip.conf] is broken. *)
Definition world_py310 : World :=
  mkWorld ros3 "3" (3, 10) "/usr/bin/python3" false popen_pip3
    (fun p => if bool_decide (p = Path_of "/etc/pip.conf")
              then Unparsable NotParsed else NoFile).

(** No [pip3] on the path, but pip importable in the running Python 3. *)
Definition world_importable : World :=
  mkWorld ros3 "3" (3, 12) "/usr/bin/python3" true popen_nothing no_files.

(** [/etc/pip.conf] sets the key to true under [[DEFAULT]] only. *)
Definition world_default_only : World :=
  py312 ros3 (fun p => if bool_decide (p = Path_of "/etc/pip.conf")
                       then Parsed {[ "DEFAULT" := {[ "break-system-packages" := "true" ]} ]}
                       else NoFile).

(** ** Basic facts about the monad and the string methods *)

Lemma run_bind {A B} (c : M A) (k : A -> M B) :
  run (bind c k) =
  match run c with
  | (Ok a, t) => k a t
  | (Raise e, t) => (Raise e, t)
  end.
Proof. reflexivity. Qed.

Lemma bind_Ok {A B} (c : M A) (k : A -> M B) t a t' :
  c t = (Ok a, t') -> bind c k t = k a t'.
Proof. unfold bind. intros ->. reflexivity. Qed.

Lemma bind_Raise {A B} (c : M A) (k : A -> M B) t e t' :
  c t = (Raise e, t') -> bind c k t = (Raise e, t').
Proof. unfold bind. intros ->. reflexivity. Qed.

(** Unfolds the monad in the goal. *)
Ltac monad_unfold :=
  unfold run, bind, ret, raise, or_raise, log, try_except in *; cbn beta iota in *.

(** [split] never returns the empty list: [l[0]] cannot fail on it. *)
Lemma split_item0 (sep s : string) :
  Py.item0 (Py.split sep s) = Some (Py.split_go sep 0 s).1.
Proof. unfold Py.split. destruct (Py.split_go sep 0 s); reflexivity. Qed.

Lemma contains_true (x : string) (l : list string) :
  Py.contains x l = true <-> x ∈ l.
Proof. unfold Py.contains. apply bool_decide_eq_true. Qed.

(** The string methods on the inputs the module gives them. *)
Example split_pin : Py.split "==" "a==b===c" = ["a"; "b"; "=c"].
Proof. reflexivity. Qed.

Example split_empty : Py.split ":" EmptyString = [EmptyString].
Proof. reflexivity. Qed.

Example split_dirs : Py.split ":" "/a:/b:" = ["/a"; "/b"; EmptyString].
Proof. reflexivity. Qed.

Example strip_reference : Py.strip "foo " = "foo" /\ Py.lower "YeS" = "yes".
Proof. split; reflexivity. Qed.

(** [strip] removes the white space beyond ASCII too, and [lower] the
    capitals beyond it. *)
Example strip_no_break_space :
  Py.strip (NBSP +:+ "bar" +:+ String (ascii_of_nat 133) EmptyString) = "bar"
  /\ Py.lower (String (ascii_of_nat 201) "T" +:+ String (ascii_of_nat 215) EmptyString)
     = String (ascii_of_nat 233) "t" +:+ String (ascii_of_nat 215) EmptyString.
Proof. split; reflexivity. Qed.

Example pip_config_file_normalised :
  pip_config_file "/a//b/./c/" = mkPath "/" ["a"; "b"; "c"; "pip"; "pip.conf"]
  /\ pip_config_file EmptyString = mkPath EmptyString ["pip"; "pip.conf"].
Proof. split; reflexivity. Qed.

Lemma string_length_app (s1 s2 : string) :
  String.length (s1 +:+ s2) = String.length s1 + String.length s2.
Proof. induction s1 as [|c s1 IH]; simpl; [reflexivity | by rewrite IH]. Qed.

(** ** The command locator *)

Lemma is_cmd_available_run (w : World) (cmd : list string) (t : list event) :
  exists b, is_cmd_available w cmd t = (Ok b, t ++ [EvPopen cmd STDERR_PIPE]).
Proof.
  unfold is_cmd_available, Popen_communicate. monad_unfold.
  destruct (popen w cmd STDERR_PIPE); eauto.
Qed.

(** Without [ROS_PYTHON_VERSION] the locator raises at its first line. *)
Lemma get_pip_command_unset (w : World) (t : list event) :
  environ w !! "ROS_PYTHON_VERSION" = None ->
  get_pip_command w t = (Raise (KeyError "ROS_PYTHON_VERSION"), t).
Proof.
  intros Hnone. unfold get_pip_command, environ_item, bind at 1.
  rewrite Hnone. reflexivity.
Qed.

(** With it, the locator returns: a command of one or three words, or
    [None]; all it does is probe commands. *)
Lemma get_pip_command_set (w : World) (v : string) :
  environ w !! "ROS_PYTHON_VERSION" = Some v ->
  exists r t,
    run (get_pip_command w) = (Ok r, t)
    /\ r <> Some []
    /\ Forall is_probe t.
Proof.
  intros Hv. unfold run, get_pip_command, environ_item.
  unfold bind at 1. rewrite Hv. simpl.
  unfold bind at 1.
  destruct (is_cmd_available_run w ["pip" +:+ v] []) as [b1 ->].
  destruct b1.
  { eexists _, _. split; [reflexivity|]. split; [discriminate|].
    repeat constructor. }
  unfold bind at 1. simpl.
  destruct (bool_decide _ && pip_importable w).
  { eexists _, _. split; [reflexivity|]. split; [discriminate|].
    repeat constructor. }
  unfold bind at 1. simpl.
  unfold bind at 1.
  destruct (is_cmd_available_run w ["python" +:+ v; "-m"; "pip"]
              [EvPopen ["pip" +:+ v] STDERR_PIPE]) as [b2 ->].
  destruct b2.
  - eexists _, _. split; [reflexivity|]. split; [discriminate|].
    repeat constructor.
  - eexists _, _. split; [reflexivity|]. split; [discriminate|].
    repeat constructor.
Qed.

(** Whatever the locator returns, it only probed commands on the way. *)
Lemma get_pip_command_events (w : World) r t :
  run (get_pip_command w) = (r, t) -> Forall is_probe t.
Proof.
  destruct (environ w !! "ROS_PYTHON_VERSION") as [v|] eqn:Hv.
  - destruct (get_pip_command_set w v Hv) as (r' & t' & Hrun & _ & Hev).
    rewrite Hrun. intros [= _ <-]. exact Hev.
  - unfold run. rewrite (get_pip_command_unset w [] Hv).
    intros [= _ <-]. constructor.
Qed.

Lemma get_pip_command_nonempty (w : World) c t :
  run (get_pip_command w) = (Ok (Some c), t) -> c <> [].
Proof.
  destruct (environ w !! "ROS_PYTHON_VERSION") as [v|] eqn:Hv.
  - destruct (get_pip_command_set w v Hv) as (r' & t' & Hrun & Hne & _).
    rewrite Hrun. intros [= -> _] ->. by apply Hne.
  - unfold run. rewrite (get_pip_command_unset w [] Hv). discriminate.
Qed.

(** ** The detector and the installer without a usable pip *)

(** C9: if the ROS_PYTHON_VERSION environment variable is not set,
    [get_pip_command] raises a key-lookup error instead of returning
    [None], and so do [pip_detect] and [get_install_command], before
    they have done anything else: the variable is a precondition of all
    three. *)
Theorem ros_python_version_required (w : World) :
  environ w !! "ROS_PYTHON_VERSION" = None ->
  run (get_pip_command w) = (Raise (KeyError "ROS_PYTHON_VERSION"), [])
  /\ (forall pkgs exec_fn,
        run (pip_detect w pkgs exec_fn)
        = (Raise (KeyError "ROS_PYTHON_VERSION"), []))
  /\ (forall packages_to_install elevate self resolved interactive reinstall quiet,
        run (get_install_command packages_to_install elevate self w
               resolved interactive reinstall quiet)
        = (Raise (KeyError "ROS_PYTHON_VERSION"), [])).
Proof.
  intros Hunset.
  pose proof (get_pip_command_unset w [] Hunset) as Hloc.
  split; [exact Hloc|]. split.
  - intros pkgs exec_fn. unfold pip_detect.
    rewrite run_bind. unfold run. rewrite Hloc. reflexivity.
  - intros gpi ep self resolved interactive reinstall quiet.
    unfold get_install_command.
    rewrite run_bind. unfold run. rewrite Hloc. reflexivity.
Qed.

Lemma ros_python_version_required_witness :
  run (pip_detect (py312 ∅ no_files) ["foo"] None)
  = (Raise (KeyError "ROS_PYTHON_VERSION"), []).
Proof.
  apply (ros_python_version_required (py312 ∅ no_files)).
  reflexivity.
Defined.

(** C8: when the command locator yields no usable pip command,
    [pip_detect] returns the empty list and does not raise; the effects
    of the call are those of the locator, which only probes commands:
    no further subprocess is started and the injected output function
    is not called. *)
Theorem pip_detect_without_pip (w : World) (pkgs : list string)
    (exec_fn : option (list string -> string)) (t0 : list event) :
  run (get_pip_command w) = (Ok None, t0) ->
  run (pip_detect w pkgs exec_fn) = (Ok [], t0) /\ Forall is_probe t0.
Proof.
  intros Hloc. split.
  - unfold pip_detect. rewrite run_bind, Hloc. reflexivity.
  - exact (get_pip_command_events w _ _ Hloc).
Qed.

Lemma pip_detect_without_pip_witness :
  run (pip_detect world_without_pip ["foo"; "bar"] (Some (fun _ => freeze_foo_qux)))
  = (Ok [], [EvPopen ["pip3"] STDERR_PIPE; EvPopen ["python3"; "-m"; "pip"] STDERR_PIPE])
  /\ Forall is_probe
       [EvPopen ["pip3"] STDERR_PIPE; EvPopen ["python3"; "-m"; "pip"] STDERR_PIPE].
Proof.
  apply (pip_detect_without_pip world_without_pip).
  reflexivity.
Defined.

(** C4: if the command locator yields no usable pip command,
    [get_install_command] raises [InstallFailed] with the installer key
    ['pip'] and the message "pip is not installed", having done nothing
    but the locator's probes: neither the policy check nor the detection
    has run.  If the locator succeeds and the policy check denies, it
    raises [InstallFailed] with the key ['pip'] and the fixed
    externally-managed explainer. *)
Theorem get_install_command_failures
    (packages_to_install :
       PackageManagerInstaller -> World -> list string -> bool -> M (list string))
    (elevate : PackageManagerInstaller -> list string -> list string)
    (self : PackageManagerInstaller) (w : World) (resolved : list string)
    (interactive reinstall quiet : bool) :
  (forall t0,
      run (get_pip_command w) = (Ok None, t0) ->
      run (get_install_command packages_to_install elevate self w
             resolved interactive reinstall quiet)
      = (Raise (InstallFailed ("pip", "pip is not installed")), t0)
      /\ Forall is_probe t0)
  /\ (forall pip_cmd t0 t1,
        run (get_pip_command w) = (Ok (Some pip_cmd), t0) ->
        externally_managed_installable w t0 = (Ok false, t1) ->
        run (get_install_command packages_to_install elevate self w
               resolved interactive reinstall quiet)
        = (Raise (InstallFailed ("pip", EXTERNALLY_MANAGED_EXPLAINER)), t1)).
Proof.
  split.
  - intros t0 Hloc. split.
    + unfold get_install_command. rewrite run_bind, Hloc. reflexivity.
    + exact (get_pip_command_events w _ _ Hloc).
  - intros pip_cmd t0 t1 Hloc Hdenied.
    pose proof (get_pip_command_nonempty w _ _ Hloc) as Hne.
    unfold get_install_command. rewrite run_bind, Hloc.
    destruct pip_cmd as [|c0 cs]; [done|].
    rewrite (bind_Ok _ _ _ _ _ Hdenied). reflexivity.
Qed.

Lemma get_install_command_failures_witness :
  run (get_install_command sample_get_packages_to_install sample_elevate_priv
         (mkInstaller true "sudo -H") world_without_pip ["foo"] true false true)
  = (Raise (InstallFailed ("pip", "pip is not installed")),
     [EvPopen ["pip3"] STDERR_PIPE; EvPopen ["python3"; "-m"; "pip"] STDERR_PIPE])
  /\ run (get_install_command sample_get_packages_to_install sample_elevate_priv
            (mkInstaller true "sudo -H") (py312 ros3 no_files) ["foo"] true false true)
     = (Raise (InstallFailed ("pip", EXTERNALLY_MANAGED_EXPLAINER)),
        [EvPopen ["pip3"] STDERR_PIPE; EvReadConfig (Path_of "/etc/pip.conf")]).
Proof.
  split.
  - apply (get_install_command_failures sample_get_packages_to_install
             sample_elevate_priv (mkInstaller true "sudo -H") world_without_pip
             ["foo"] true false true).
    reflexivity.
  - apply (proj2 (get_install_command_failures sample_get_packages_to_install
             sample_elevate_priv (mkInstaller true "sudo -H") (py312 ros3 no_files)
             ["foo"] true false true) ["pip3"] [EvPopen ["pip3"] STDERR_PIPE]).
    + reflexivity.
    + reflexivity.
Defined.

(** C5: for the packages [get_packages_to_install] returns,
    [get_install_command] returns one command per package, in order:
    the pip command, then [install], [-U], then [-q] exactly when quiet,
    then [-I] exactly when reinstall, then the package as last token,
    each passed through the privilege-elevation wrapper; for no packages
    it returns the empty list. *)
Theorem get_install_command_per_package
    (packages_to_install :
       PackageManagerInstaller -> World -> list string -> bool -> M (list string))
    (elevate : PackageManagerInstaller -> list string -> list string)
    (self : PackageManagerInstaller) (w : World) (resolved : list string)
    (interactive reinstall quiet : bool)
    (pip_cmd packages : list string) (t0 t1 t2 : list event) :
  run (get_pip_command w) = (Ok (Some pip_cmd), t0) ->
  externally_managed_installable w t0 = (Ok true, t1) ->
  packages_to_install self w resolved reinstall t1 = (Ok packages, t2) ->
  exists cmds,
    run (get_install_command packages_to_install elevate self w
           resolved interactive reinstall quiet) = (Ok cmds, t2)
    /\ cmds = map (fun p => elevate self (install_tokens pip_cmd quiet reinstall p))
                  packages
    /\ length cmds = length packages
    /\ (packages = [] -> cmds = [])
    /\ (forall p, last (install_tokens pip_cmd quiet reinstall p) = Some p)
    /\ (forall p, "-q" ∈ drop (length pip_cmd) (removelast (install_tokens pip_cmd quiet reinstall p))
                  <-> quiet = true)
    /\ (forall p, "-I" ∈ drop (length pip_cmd) (removelast (install_tokens pip_cmd quiet reinstall p))
                  <-> reinstall = true).
Proof.
  intros Hloc Hallowed Hpkgs.
  pose proof (get_pip_command_nonempty w _ _ Hloc) as Hne.
  eexists. split; [|split; [reflexivity|]].
  - unfold get_install_command. rewrite run_bind, Hloc.
    destruct pip_cmd as [|c0 cs]; [done|].
    rewrite (bind_Ok _ _ _ _ _ Hallowed). cbn [negb].
    rewrite (bind_Ok _ _ _ _ _ Hpkgs).
    destruct packages as [|p ps]; [reflexivity|].
    unfold ret. apply (f_equal (fun l => (Ok l, t2))).
    apply map_ext. intros x. f_equal. unfold install_tokens.
    destruct quiet, reinstall; rewrite <- ?app_assoc; reflexivity.
  - split; [apply length_map|]. split; [intros ->; reflexivity|].
    split; [|split].
    + intros p. unfold install_tokens. rewrite !app_assoc. apply last_snoc.
    + intros p. unfold install_tokens.
      rewrite !app_assoc, removelast_last, <- !app_assoc, drop_app_length.
      destruct quiet, reinstall; simpl; split; intros H; try done;
        repeat (apply elem_of_cons in H as [H|H]; try discriminate);
        try (by apply elem_of_nil in H); set_solver.
    + intros p. unfold install_tokens.
      rewrite !app_assoc, removelast_last, <- !app_assoc, drop_app_length.
      destruct quiet, reinstall; simpl; split; intros H; try done;
        repeat (apply elem_of_cons in H as [H|H]; try discriminate);
        try (by apply elem_of_nil in H); set_solver.
Qed.

Lemma get_install_command_per_package_witness :
  exists cmds,
    run (get_install_command sample_get_packages_to_install sample_elevate_priv
           (mkInstaller true "sudo -H")
           (py312 (<[ "PIP_BREAK_SYSTEM_PACKAGES" := "1" ]> ros3) no_files)
           ["foo"; "bar"; "baz"] true false true)
    = (Ok cmds,
       [EvPopen ["pip3"] STDERR_PIPE; EvPopen ["pip3"] STDERR_PIPE;
        EvPopen ["pip3"; "freeze"] STDERR_PIPE;
        EvPopen ["pip3"; "show"; "bar"] STDERR_STDOUT;
        EvPopen ["pip3"; "show"; "baz"] STDERR_STDOUT])
    /\ cmds = [["sudo"; "-H"; "pip3"; "install"; "-U"; "-q"; "bar"];
               ["sudo"; "-H"; "pip3"; "install"; "-U"; "-q"; "baz"]].
Proof.
  destruct (get_install_command_per_package sample_get_packages_to_install
              sample_elevate_priv (mkInstaller true "sudo -H")
              (py312 (<[ "PIP_BREAK_SYSTEM_PACKAGES" := "1" ]> ros3) no_files)
              ["foo"; "bar"; "baz"] true false true
              ["pip3"] ["bar"; "baz"]
              [EvPopen ["pip3"] STDERR_PIPE]
              [EvPopen ["pip3"] STDERR_PIPE]
              [EvPopen ["pip3"] STDERR_PIPE; EvPopen ["pip3"] STDERR_PIPE;
               EvPopen ["pip3"; "freeze"] STDERR_PIPE;
               EvPopen ["pip3"; "show"; "bar"] STDERR_STDOUT;
               EvPopen ["pip3"; "show"; "baz"] STDERR_STDOUT])
    as (cmds & Hrun & Hcmds & _).
  - reflexivity.
  - reflexivity.
  - reflexivity.
  - exists cmds. split; [exact Hrun | exact Hcmds].
Defined.

(** C10: when the installer runs as root with a non-empty sudo command,
    construction appends [' --preserve-env=PIP_BREAK_SYSTEM_PACKAGES']
    to the sudo command, once; when it does not run as root, or the
    sudo command is empty, the sudo command is left as it was.  The
    [as_root] flag is never changed. *)
Theorem PipInstaller_init_sudo_command (self : PackageManagerInstaller) :
  as_root (PipInstaller__init__ self) = as_root self
  /\ (as_root self = true -> sudo_command self <> EmptyString ->
      sudo_command (PipInstaller__init__ self)
      = sudo_command self +:+ " --preserve-env=PIP_BREAK_SYSTEM_PACKAGES"
      /\ String.length (sudo_command (PipInstaller__init__ self))
         = String.length (sudo_command self) + 41)
  /\ (as_root self = false \/ sudo_command self = EmptyString ->
      PipInstaller__init__ self = self).
Proof.
  unfold PipInstaller__init__. destruct self as [root sudo]. simpl.
  split; [|split].
  - destruct (root && _); reflexivity.
  - intros -> Hne. rewrite bool_decide_eq_false_2 by exact Hne. simpl.
    split; [reflexivity|]. rewrite string_length_app. reflexivity.
  - intros [-> | ->]; [reflexivity|].
    rewrite andb_false_r. reflexivity.
Qed.

Lemma PipInstaller_init_sudo_command_witness :
  sudo_command (PipInstaller__init__ (mkInstaller true "sudo -H"))
  = "sudo -H --preserve-env=PIP_BREAK_SYSTEM_PACKAGES"
  /\ PipInstaller__init__ (mkInstaller true EmptyString) = mkInstaller true EmptyString
  /\ PipInstaller__init__ (mkInstaller false "sudo -H") = mkInstaller false "sudo -H".
Proof.
  split; [|split].
  - apply (PipInstaller_init_sudo_command (mkInstaller true "sudo -H")).
    + reflexivity.
    + discriminate.
  - apply (PipInstaller_init_sudo_command (mkInstaller true EmptyString)).
    right. reflexivity.
  - apply (PipInstaller_init_sudo_command (mkInstaller false "sudo -H")).
    left. reflexivity.
Defined.

(** ** The freeze pass of the detector *)

(** The freeze loop never raises and changes nothing outside: it adds,
    in freeze order, the base names of the lines that are candidates. *)
Lemma freeze_loop_run (pkgs pkg_list ret_list : list string) (t : list event) :
  freeze_loop pkgs pkg_list ret_list t
  = (Ok (ret_list ++ filter (fun n => n ∈ pkgs) (map base_name pkg_list)), t).
Proof.
  revert ret_list. induction pkg_list as [|pkg rest IH]; intros ret_list.
  - simpl. rewrite app_nil_r. reflexivity.
  - cbn [freeze_loop map]. rewrite split_item0.
    unfold or_raise. unfold bind at 1. unfold ret at 1.
    fold (base_name pkg). unfold Py.contains.
    rewrite filter_cons. case_bool_decide as Hin.
    + rewrite decide_True by exact Hin.
      rewrite IH, <- app_assoc. reflexivity.
    + rewrite decide_False by exact Hin. apply IH.
Qed.

(** With an injected output function and a located pip, the detector's
    run is the locator, one call of the function, and the freeze loop. *)
Lemma pip_detect_injected_run (w : World) (pkgs pip_cmd : list string)
    (f : list string -> string) (t0 : list event) :
  run (get_pip_command w) = (Ok (Some pip_cmd), t0) ->
  run (pip_detect w pkgs (Some f))
  = (Ok (filter (fun n => n ∈ pkgs)
           (map base_name (Py.split NL (f (pip_cmd ++ ["freeze"]))))),
     t0 ++ [EvExecFn (pip_cmd ++ ["freeze"])]).
Proof.
  intros Hloc. pose proof (get_pip_command_nonempty w _ _ Hloc) as Hne.
  unfold pip_detect. rewrite run_bind, Hloc.
  destruct pip_cmd as [|c0 cs]; [done|].
  unfold call_exec_fn. unfold bind at 1. unfold bind at 1. unfold log, ret.
  unfold bind at 1. rewrite freeze_loop_run. reflexivity.
Qed.

(** ** The show pass of the detector *)

(** The show loop adds, in order, some of the candidates it is given;
    it raises only when a [pip show] process cannot be started. *)
Lemma bind_ret {A B} (a : A) (k : A -> M B) (t : list event) :
  bind (ret a) k t = k a t.
Proof. reflexivity. Qed.

Lemma Popen_communicate_exits (w : World) cmd err rc out (t : list event) :
  popen w cmd err = Exits rc out ->
  Popen_communicate w cmd err t = (Ok (rc, out), t ++ [EvPopen cmd err]).
Proof. intros H. unfold Popen_communicate, bind, log. rewrite H. reflexivity. Qed.

Lemma Popen_communicate_fails (w : World) cmd err (t : list event) :
  popen w cmd err = SpawnFails ->
  Popen_communicate w cmd err t = (Raise (OSError cmd), t ++ [EvPopen cmd err]).
Proof. intros H. unfold Popen_communicate, bind, log. rewrite H. reflexivity. Qed.

Lemma show_loop_run (w : World) (pip_cmd : list string) :
  forall (todo ret_list : list string) (t : list event),
    (exists shown t',
        show_loop w pip_cmd todo ret_list t = (Ok (ret_list ++ shown), t')
        /\ shown `sublist_of` todo)
    \/ (exists cmd t',
          show_loop w pip_cmd todo ret_list t = (Raise (OSError cmd), t')
          /\ popen w cmd STDERR_STDOUT = SpawnFails).
Proof.
  induction todo as [|pkg rest IH]; intros ret_list t.
  - left. exists [], t. simpl. rewrite app_nil_r. split; [reflexivity|constructor].
  - cbn [show_loop]. rewrite split_item0. unfold or_raise. rewrite bind_ret.
    set (cmd := pip_cmd ++ ["show"; Py.strip (Py.split_go "@" 0 pkg).1]).
    destruct (popen w cmd STDERR_STDOUT) as [|rc out] eqn:Hpopen.
    { right. exists cmd. eexists. split; [|exact Hpopen].
      exact (bind_Raise _ _ _ _ _ (Popen_communicate_fails w cmd _ t Hpopen)). }
    rewrite (bind_Ok _ _ _ _ _ (Popen_communicate_exits w cmd _ rc out t Hpopen)).
    destruct ((rc =? 0)%Z && Py.truthy (Py.strip_bytes out)).
    + destruct (IH (ret_list ++ [pkg]) (t ++ [EvPopen cmd STDERR_STDOUT]))
        as [(shown & t' & Hrun & Hsub) | (cmd' & t' & Hrun & Hfail)].
      * left. exists (pkg :: shown), t'. rewrite Hrun, <- app_assoc.
        split; [reflexivity | by constructor].
      * right. eauto.
    + destruct (IH ret_list (t ++ [EvPopen cmd STDERR_STDOUT]))
        as [(shown & t' & Hrun & Hsub) | (cmd' & t' & Hrun & Hfail)].
      * left. exists shown, t'. split; [exact Hrun | by constructor].
      * right. eauto.
Qed.


(** C6: with an injected output function that returns text,
    [pip_detect] returns a list all of whose members are candidates;
    its only effects are the locator's probes and the call of the
    injected function, so the [pip show] pass has not run.  With
    candidates foo, bar, baz and the freeze text of foo 1.0 and qux 2.0
    it returns exactly foo. *)
Theorem pip_detect_injected_subset :
  (forall (w : World) (pkgs : list string) (f : list string -> string),
      is_Some (environ w !! "ROS_PYTHON_VERSION") ->
      exists l t,
        run (pip_detect w pkgs (Some f)) = (Ok l, t)
        /\ l ⊆ pkgs
        /\ Forall (fun e => is_probe e \/ exists cmd, e = EvExecFn cmd) t)
  /\ (forall (w : World) (f : list string -> string) pip_cmd t0,
        run (get_pip_command w) = (Ok (Some pip_cmd), t0) ->
        f (pip_cmd ++ ["freeze"]) = freeze_foo_qux ->
        run (pip_detect w ["foo"; "bar"; "baz"] (Some f))
        = (Ok ["foo"], t0 ++ [EvExecFn (pip_cmd ++ ["freeze"])])).
Proof.
  split.
  - intros w pkgs f [v Hv].
    destruct (get_pip_command_set w v Hv) as (r & t0 & Hloc & Hne & Hev).
    destruct r as [pip_cmd|].
    + rewrite (pip_detect_injected_run w pkgs pip_cmd f t0 Hloc).
      eexists _, _. split; [reflexivity|]. split.
      * intros x Hx. apply list_elem_of_filter in Hx. tauto.
      * apply Forall_app. split.
        -- eapply Forall_impl; [exact Hev|]. intros e He. by left.
        -- constructor; [right; eauto | constructor].
    + exists [], t0. split; [|split].
      * unfold pip_detect. rewrite run_bind, Hloc. reflexivity.
      * intros x Hx. by apply elem_of_nil in Hx.
      * eapply Forall_impl; [exact Hev|]. intros e He. by left.
  - intros w f pip_cmd t0 Hloc Hf.
    rewrite (pip_detect_injected_run w _ pip_cmd f t0 Hloc), Hf.
    reflexivity.
Qed.

Lemma pip_detect_injected_subset_witness :
  (exists l t,
      run (pip_detect (py312 ros3 no_files) ["foo"; "bar"; "baz"]
             (Some (fun _ => freeze_foo_qux))) = (Ok l, t)
      /\ l ⊆ ["foo"; "bar"; "baz"]
      /\ Forall (fun e => is_probe e \/ exists cmd, e = EvExecFn cmd) t)
  /\ run (pip_detect (py312 ros3 no_files) ["foo"; "bar"; "baz"]
            (Some (fun _ => freeze_foo_qux)))
     = (Ok ["foo"], [EvPopen ["pip3"] STDERR_PIPE] ++ [EvExecFn (["pip3"] ++ ["freeze"])]).
Proof.
  split.
  - apply (proj1 pip_detect_injected_subset (py312 ros3 no_files)).
    exists "3". reflexivity.
  - apply (proj2 pip_detect_injected_subset (py312 ros3 no_files)).
    + reflexivity.
    + reflexivity.
Defined.




(** The production detector on the sample world: foo from the freeze
    pass, nothing from the show pass. *)
Example pip_detect_production_sample :
  run (pip_detect (py312 ros3 no_files) ["foo"; "bar==2.0"] None)
  = (Ok ["foo"],
     [EvPopen ["pip3"] STDERR_PIPE; EvPopen ["pip3"; "freeze"] STDERR_PIPE;
      EvPopen ["pip3"; "show"; "bar==2.0"] STDERR_STDOUT]).
Proof. reflexivity. Qed.

(** ** The configuration parser *)

Lemma ini_update_key (doc old : ini) (section : string) :
  key_in (ini_update doc old) section
  = match key_in doc section with
    | Some v => Some v
    | None => key_in old section
    end.
Proof.
  unfold key_in, ini_update. rewrite lookup_union_with.
  destruct (doc !! section) as [new_sec|], (old !! section) as [old_sec|];
    simpl; try reflexivity.
  - rewrite lookup_union.
    destruct (new_sec !! _), (old_sec !! _); reflexivity.
  - destruct (new_sec !! _); reflexivity.
Qed.

Lemma ini_update_section (doc old : ini) (section : string) :
  is_Some (ini_update doc old !! section)
  <-> is_Some (doc !! section) \/ is_Some (old !! section).
Proof.
  unfold ini_update. rewrite lookup_union_with.
  destruct (doc !! section), (old !! section); simpl;
    rewrite ?is_Some_alt; tauto.
Qed.

Lemma ini_update_empty (parser : ini) : ini_update ∅ parser = parser.
Proof.
  apply map_eq. intros section. unfold ini_update.
  rewrite lookup_union_with, lookup_empty. by destruct (parser !! section).
Qed.

(** What [getboolean] looks at: the key under [[install]], else under
    [[DEFAULT]], provided an [[install]] section exists at all. *)
Lemma lookup_install_key (parser : ini) :
  ConfigParser_lookup parser "install" "break-system-packages"
  = match parser !! "install" with
    | None => None
    | Some _ =>
        match key_in parser "install" with
        | Some v => Some v
        | None => key_in parser "DEFAULT"
        end
    end.
Proof.
  unfold ConfigParser_lookup, ConfigParser_unify_values, key_in.
  change (Py.lower "break-system-packages") with "break-system-packages".
  destruct (parser !! "install") as [sec|]; simpl; [|reflexivity].
  rewrite lookup_union.
  destruct (sec !! _), (parser !! "DEFAULT") as [dflt|]; simpl;
    rewrite ?lookup_empty; try reflexivity.
  all: destruct (dflt !! _); reflexivity.
Qed.

(** [getboolean] in three steps: the raw value, its expansion, its
    conversion. *)
Lemma getboolean_steps (parser : ini) (t : list event) :
  ConfigParser_getboolean parser "install" "break-system-packages" false t
  = match ConfigParser_lookup parser "install" "break-system-packages" with
    | None => (Ok false, t)
    | Some value =>
        match before_get "install" "break-system-packages" value
                (install_options parser) with
        | Ok expanded =>
            (match BOOLEAN_STATES !! Py.lower expanded with
             | Some b => Ok b
             | None => Raise (ValueError ("Not a boolean: " +:+ expanded))
             end, t)
        | Raise e => (Raise e, t)
        end
    end.
Proof.
  unfold ConfigParser_getboolean, ConfigParser_lookup, install_options.
  change (Py.lower "break-system-packages") with "break-system-packages".
  destruct (ConfigParser_unify_values parser "install") as [d|]; [|reflexivity].
  simpl. destruct (d !! "break-system-packages") as [value|]; [|reflexivity].
  unfold bind, lift, or_raise.
  destruct (before_get _ _ value d) as [expanded|e]; [|reflexivity].
  destruct (BOOLEAN_STATES !! Py.lower expanded); reflexivity.
Qed.

(** *** Interpolation *)

Lemma str_contains_char (a c : ascii) (s : string) :
  str_contains (String a EmptyString) (String c s)
  = bool_decide (a = c) || str_contains (String a EmptyString) s.
Proof.
  cbn [str_contains Py.startswith].
  destruct (decide (a = c)) as [->|Hne].
  - rewrite bool_decide_eq_true_2 by reflexivity. reflexivity.
  - rewrite bool_decide_eq_false_2 by exact Hne. reflexivity.
Qed.

(** Text without [%] is left as it is. *)
Lemma interpolate_scan_plain (recur : string -> outcome string)
    (opt section rawval : string) (map : gmap string string) (rest : string) :
  str_contains "%" rest = false ->
  interpolate_scan recur opt section rawval map InText rest = Ok rest.
Proof.
  induction rest as [|c rest IH]; [reflexivity|].
  rewrite str_contains_char. intros H.
  apply orb_false_iff in H as [Hc Hrest].
  cbn [interpolate_scan].
  rewrite (bool_decide_ext (c = "%"%char) ("%"%char = c)) by (split; congruence).
  rewrite Hc, (IH Hrest). reflexivity.
Qed.

Lemma before_get_plain (section opt value : string) (map : gmap string string) :
  str_contains "%" value = false ->
  before_get section opt value map = Ok value.
Proof. intros H. unfold before_get. simpl. by apply interpolate_scan_plain. Qed.

(** Interpolation raises nothing but its own three errors. *)
Lemma interpolate_scan_errors (recur : string -> outcome string)
    (opt section rawval : string) (map : gmap string string) :
  (forall v e, recur v = Raise e -> is_interpolation_error e) ->
  forall (rest : string) (st : scan_state) (e : exn),
    interpolate_scan recur opt section rawval map st rest = Raise e ->
    is_interpolation_error e.
Proof.
  intros Hrecur. induction rest as [|c rest IH]; intros st e.
  - destruct st; simpl; intros [= <-]; exact I.
  - destruct st as [|found|found name|found name]; cbn [interpolate_scan].
    + case_bool_decide; [apply IH|].
      destruct (interpolate_scan _ _ _ _ _ InText rest) as [x|e'] eqn:Hscan;
        simpl; [discriminate|]. intros [= <-]. by apply (IH InText).
    + case_bool_decide.
      { destruct (interpolate_scan _ _ _ _ _ InText rest) as [x|e'] eqn:Hscan;
          simpl; [discriminate|]. intros [= <-]. by apply (IH InText). }
      case_bool_decide; [apply IH|]. intros [= <-]. exact I.
    + case_bool_decide; [|apply IH].
      destruct name; [intros [= <-]; exact I | apply IH].
    + case_bool_decide; [|intros [= <-]; exact I].
      destruct (map !! Py.lower name) as [v|]; [|intros [= <-]; exact I].
      destruct (str_contains "%" v).
      * destruct (recur v) as [x|e'] eqn:Hv; simpl.
        -- destruct (interpolate_scan _ _ _ _ _ InText rest) as [y|e''] eqn:Hscan;
             simpl; [discriminate|]. intros [= <-]. by apply (IH InText).
        -- intros [= <-]. by apply (Hrecur v).
      * simpl.
        destruct (interpolate_scan _ _ _ _ _ InText rest) as [y|e''] eqn:Hscan;
          simpl; [discriminate|]. intros [= <-]. by apply (IH InText).
Qed.

Lemma interpolate_some_errors (opt section rawval : string)
    (map : gmap string string) (fuel : nat) :
  forall (rest : string) (e : exn),
    interpolate_some fuel opt section rawval map rest = Raise e ->
    is_interpolation_error e.
Proof.
  induction fuel as [|fuel IH]; intros rest e; simpl.
  - intros [= <-]. exact I.
  - apply interpolate_scan_errors. exact IH.
Qed.

Lemma before_get_errors (section opt value : string) (map : gmap string string)
    (e : exn) :
  before_get section opt value map = Raise e -> is_interpolation_error e.
Proof. apply interpolate_some_errors. Qed.

(** [lower] neither makes nor removes a [%]. *)
Lemma lower_ascii_percent (c : ascii) :
  bool_decide ("%"%char = Py.lower_ascii c) = bool_decide ("%"%char = c).
Proof. by destruct c as [[] [] [] [] [] [] [] []]. Qed.

Lemma lower_percent (v : string) :
  str_contains "%" (Py.lower v) = str_contains "%" v.
Proof.
  induction v as [|c v IH]; [reflexivity|].
  cbn [Py.lower]. by rewrite !str_contains_char, lower_ascii_percent, IH.
Qed.

Lemma BOOLEAN_STATES_keys (s : string) (b : bool) :
  BOOLEAN_STATES !! s = Some b ->
  s ∈ ["1"; "yes"; "true"; "on"; "0"; "no"; "false"; "off"].
Proof.
  intros H. unfold BOOLEAN_STATES in H.
  apply elem_of_list_to_map_2 in H.
  repeat (apply elem_of_cons in H as [H|H]; [injection H as -> _; set_solver|]).
  by apply elem_of_nil in H.
Qed.

(** A boolean literal holds no [%]: it is never expanded. *)
Lemma boolean_literal_plain (v : string) (b : bool) :
  BOOLEAN_STATES !! Py.lower v = Some b -> str_contains "%" v = false.
Proof.
  intros H. apply BOOLEAN_STATES_keys in H.
  rewrite <- lower_percent.
  repeat (apply elem_of_cons in H as [->|H]; [reflexivity|]).
  by apply elem_of_nil in H.
Qed.

Lemma getboolean_literal (parser : ini) (v : string) (b : bool) (t : list event) :
  ConfigParser_lookup parser "install" "break-system-packages" = Some v ->
  BOOLEAN_STATES !! Py.lower v = Some b ->
  ConfigParser_getboolean parser "install" "break-system-packages" false t
  = (Ok b, t).
Proof.
  intros Hlookup Hbool. rewrite getboolean_steps, Hlookup.
  rewrite before_get_plain by (by eapply boolean_literal_plain).
  rewrite Hbool. reflexivity.
Qed.

Lemma getboolean_undefined (parser : ini) (t : list event) :
  ¬ defines_key parser ->
  ConfigParser_getboolean parser "install" "break-system-packages" false t
  = (Ok false, t).
Proof.
  intros Hnot. rewrite getboolean_steps, lookup_install_key.
  destruct (parser !! "install"); [|reflexivity].
  destruct (key_in parser "install") eqn:H1.
  { exfalso. apply Hnot. left. eauto. }
  destruct (key_in parser "DEFAULT") eqn:H2.
  { exfalso. apply Hnot. right. eauto. }
  reflexivity.
Qed.

Lemma getboolean_boolean_valued (parser : ini) (t : list event) :
  boolean_valued parser ->
  exists b,
    ConfigParser_getboolean parser "install" "break-system-packages" false t
    = (Ok b, t).
Proof.
  intros Hbv.
  destruct (ConfigParser_lookup parser "install" "break-system-packages")
    as [v|] eqn:Hlookup.
  2: { rewrite getboolean_steps, Hlookup. by eexists. }
  assert (Hlit : is_Some (BOOLEAN_STATES !! Py.lower v)).
  { rewrite lookup_install_key in Hlookup.
    destruct (parser !! "install"); [|discriminate].
    destruct (key_in parser "install") as [v'|] eqn:H1.
    - injection Hlookup as ->. by apply (Hbv "install"); [left|].
    - by apply (Hbv "DEFAULT"); [right|]. }
  destruct Hlit as [b Hb]. exists b. by apply (getboolean_literal parser v).
Qed.

Lemma boolean_valued_empty : boolean_valued ∅.
Proof.
  intros section v _ H. unfold key_in in H. rewrite lookup_empty in H.
  discriminate.
Qed.

Lemma boolean_valued_update (doc old : ini) :
  boolean_valued doc -> boolean_valued old -> boolean_valued (ini_update doc old).
Proof.
  intros Hdoc Hold section v Hsec. rewrite ini_update_key.
  destruct (key_in doc section) as [v'|] eqn:Hk.
  - intros [= <-]. by apply (Hdoc section).
  - by apply Hold.
Qed.

Lemma not_defines_empty : ¬ defines_key ∅.
Proof.
  unfold defines_key, key_in. rewrite !lookup_empty. simpl.
  intros [[? H]|[? H]]; discriminate.
Qed.

Lemma not_defines_update (doc old : ini) :
  ¬ defines_key doc -> ¬ defines_key old -> ¬ defines_key (ini_update doc old).
Proof.
  unfold defines_key. intros Hdoc Hold. rewrite !ini_update_key.
  destruct (key_in doc "install") eqn:H1.
  { exfalso. apply Hdoc. left. eauto. }
  destruct (key_in doc "DEFAULT") eqn:H2.
  { exfalso. apply Hdoc. right. eauto. }
  exact Hold.
Qed.

Lemma read_lacks_key (w : World) (parser : ini) (p : Path) (t : list event) :
  ¬ defines_key parser ->
  lacks_key (config_files w p) ->
  exists parser',
    ConfigParser_read w parser p t = (Ok parser', t ++ [EvReadConfig p])
    /\ ¬ defines_key parser'.
Proof.
  intros Hnd Hlk. unfold ConfigParser_read, bind, log.
  destruct (config_files w p) as [| |doc]; simpl in Hlk.
  - eauto.
  - contradiction.
  - eexists. split; [reflexivity|]. by apply not_defines_update.
Qed.

(** ** The loop over the XDG directories *)

(** Over files that define no key the loop falls through, having read
    each of them, with a parser that defines no key. *)
Lemma xdg_config_loop_lacks (w : World) (dirs : list string) :
  forall (parser : ini) (t : list event),
    ¬ defines_key parser ->
    Forall (fun d => lacks_key (config_files w (pip_config_file d))) dirs ->
    exists parser',
      xdg_config_loop w parser dirs t
      = (Ok (Fallthrough parser'), t ++ read_events dirs)
      /\ ¬ defines_key parser'.
Proof.
  induction dirs as [|d rest IH]; intros parser t Hnd Hall.
  - exists parser. simpl. rewrite app_nil_r. eauto.
  - apply Forall_cons in Hall as [Hd Hrest].
    destruct (read_lacks_key w parser (pip_config_file d) t Hnd Hd)
      as (parser' & Hread & Hnd').
    cbn [xdg_config_loop]. rewrite (bind_Ok _ _ _ _ _ Hread).
    rewrite (bind_Ok _ _ _ _ _ (getboolean_undefined parser' _ Hnd')).
    destruct (IH parser' (t ++ [EvReadConfig (pip_config_file d)]) Hnd' Hrest)
      as (parser'' & Hloop & Hnd'').
    exists parser''. rewrite Hloop, <- app_assoc. eauto.
Qed.

(** From Python 3.11 on and without a truthy override, the policy check
    is the loop followed by the fallback file. *)
Lemma externally_managed_installable_loop (w : World) (t : list event) :
  version_info_lt (sys_version_info w) (3, 11) = false ->
  break_system_packages_env w = false ->
  externally_managed_installable w t
  = bind (xdg_config_loop w ∅ (xdg_dirs w))
      (fun r =>
         match r with
         | Return b => ret b
         | Fallthrough pip_config =>
             let* pip_config := ConfigParser_read w pip_config (Path_of "/etc/pip.conf") in
             let* b := ConfigParser_getboolean pip_config "install" "break-system-packages" false in
             ret b
         end) t.
Proof.
  intros Hver Henv. unfold externally_managed_installable, xdg_dirs.
  rewrite Hver, Henv.
  assert (Hif : forall b : bool, (if b then ret true else ret false) = ret b)
    by (intros []; reflexivity).
  destruct (environ w !! "XDG_CONFIG_DIRS"); unfold bind at 1 4.
  - destruct (xdg_config_loop _ _ _ _) as [[[b|parser]|e] t']; try reflexivity.
    unfold bind. destruct (ConfigParser_read _ _ _ _) as [[p'|e] t'']; [|reflexivity].
    destruct (ConfigParser_getboolean _ _ _ _ _) as [[[]|e] t3]; reflexivity.
  - simpl. unfold bind. destruct (ConfigParser_read _ _ _ _) as [[p'|e] t'']; [|reflexivity].
    destruct (ConfigParser_getboolean _ _ _ _ _) as [[[]|e] t3]; reflexivity.
Qed.

(** ** The policy check as a chain over the listed files *)

Lemma bind_assoc {A B C} (c : M A) (k1 : A -> M B) (k2 : B -> M C) (t : list event) :
  bind (bind c k1) k2 t = bind c (fun a => bind (k1 a) k2) t.
Proof. unfold bind. by destruct (c t) as [[a|e] t']. Qed.

Lemma policy_chain_of_loop (w : World) (dirs : list string) :
  forall (parser : ini) (t : list event),
    bind (xdg_config_loop w parser dirs)
      (fun r =>
         match r with
         | Return b => ret b
         | Fallthrough pip_config =>
             let* pip_config := ConfigParser_read w pip_config (Path_of "/etc/pip.conf") in
             let* b := ConfigParser_getboolean pip_config "install" "break-system-packages" false in
             ret b
         end) t
    = policy_chain w parser (map pip_config_file dirs ++ [Path_of "/etc/pip.conf"]) t.
Proof.
  induction dirs as [|d rest IH]; intros parser t.
  - cbn [xdg_config_loop map app policy_chain]. rewrite bind_ret.
    destruct (ConfigParser_read w parser (Path_of "/etc/pip.conf") t)
      as [[parser'|e] t'] eqn:Hread.
    + rewrite !(bind_Ok _ _ _ _ _ Hread).
      destruct (ConfigParser_getboolean parser' "install" "break-system-packages"
                  false t') as [[b|e] t''] eqn:Hget.
      * rewrite !(bind_Ok _ _ _ _ _ Hget). by destruct b.
      * by rewrite !(bind_Raise _ _ _ _ _ Hget).
    + by rewrite !(bind_Raise _ _ _ _ _ Hread).
  - cbn [xdg_config_loop map app policy_chain]. rewrite bind_assoc.
    destruct (ConfigParser_read w parser (pip_config_file d) t)
      as [[parser'|e] t'] eqn:Hread.
    + rewrite !(bind_Ok _ _ _ _ _ Hread), bind_assoc.
      destruct (ConfigParser_getboolean parser' "install" "break-system-packages"
                  false t') as [[b|e] t''] eqn:Hget.
      * rewrite !(bind_Ok _ _ _ _ _ Hget). destruct b; [reflexivity | apply IH].
      * by rewrite !(bind_Raise _ _ _ _ _ Hget).
    + by rewrite !(bind_Raise _ _ _ _ _ Hread).
Qed.

Lemma externally_managed_installable_chain (w : World) (t : list event) :
  version_info_lt (sys_version_info w) (3, 11) = false ->
  break_system_packages_env w = false ->
  externally_managed_installable w t = policy_chain w ∅ (config_paths w) t.
Proof.
  intros Hver Henv.
  rewrite (externally_managed_installable_loop w t Hver Henv).
  apply policy_chain_of_loop.
Qed.

Lemma last_setting_snoc (w : World) (section : string) (seen : list Path) (p : Path) :
  last_setting w section (seen ++ [p])
  = match file_key (config_files w p) section with
    | Some v => Some v
    | None => last_setting w section seen
    end.
Proof.
  induction seen as [|q seen IH]; simpl.
  - by destruct (file_key _ _).
  - rewrite IH. by destruct (file_key (config_files w p) section).
Qed.

Lemma install_section_seen_snoc (w : World) (seen : list Path) (p : Path) :
  install_section_seen w (seen ++ [p])
  = install_section_seen w seen || file_has_install (config_files w p).
Proof.
  unfold install_section_seen. rewrite existsb_app. simpl.
  by rewrite orb_false_r.
Qed.

Lemma represents_empty (w : World) : represents w [] ∅.
Proof.
  split.
  - intros section. unfold key_in. by rewrite lookup_empty.
  - rewrite lookup_empty. simpl. split; [by intros [? ?] | discriminate].
Qed.

(** Reading one more file that is not rejected. *)
Lemma read_represents (w : World) (seen : list Path) (parser : ini) (p : Path)
    (t : list event) :
  represents w seen parser ->
  (forall k, config_files w p <> Unparsable k) ->
  exists parser',
    ConfigParser_read w parser p t = (Ok parser', t ++ [EvReadConfig p])
    /\ represents w (seen ++ [p]) parser'
    /\ (boolean_valued parser -> well_formed (config_files w p) ->
        boolean_valued parser').
Proof.
  intros [Hkeys Hsec] Hgood. unfold ConfigParser_read, bind, log.
  destruct (config_files w p) as [|k|doc] eqn:Hfile.
  - exists parser. split; [reflexivity|]. split; [|tauto]. split.
    + intros section. rewrite last_setting_snoc, Hfile. simpl. apply Hkeys.
    + rewrite install_section_seen_snoc, Hfile. simpl.
      by rewrite orb_false_r.
  - by destruct (Hgood k).
  - exists (ini_update doc parser). split; [reflexivity|]. split; [split|].
    + intros section. rewrite ini_update_key, last_setting_snoc, Hfile. simpl.
      destruct (key_in doc section); [reflexivity | apply Hkeys].
    + rewrite ini_update_section, install_section_seen_snoc, Hfile. simpl.
      rewrite orb_true_iff, bool_decide_eq_true. tauto.
    + intros Hbv Hwf. by apply boolean_valued_update.
Qed.

(** What the parser gives the key is what the files read so far give it. *)
Lemma lookup_represents (w : World) (seen : list Path) (parser : ini) :
  represents w seen parser ->
  ConfigParser_lookup parser "install" "break-system-packages"
  = cumulative_value w seen.
Proof.
  intros [Hkeys Hsec]. rewrite lookup_install_key. unfold cumulative_value.
  rewrite <- !Hkeys.
  destruct (install_section_seen w seen).
  - destruct (proj2 Hsec eq_refl) as [sec ->]. reflexivity.
  - destruct (parser !! "install") as [sec|] eqn:Hp; [|reflexivity].
    assert (false = true) by (apply Hsec; eauto). discriminate.
Qed.

Lemma getboolean_represents (w : World) (seen : list Path) (parser : ini)
    (t : list event) :
  represents w seen parser ->
  boolean_valued parser ->
  ConfigParser_getboolean parser "install" "break-system-packages" false t
  = (Ok (reads_true w seen), t).
Proof.
  intros Hrep Hbv.
  destruct (getboolean_boolean_valued parser t Hbv) as [b Hget].
  rewrite Hget. f_equal. f_equal.
  rewrite getboolean_steps, (lookup_represents w seen parser Hrep) in Hget.
  unfold reads_true.
  destruct (cumulative_value w seen) as [v|] eqn:Hv; [|by injection Hget].
  destruct (before_get _ _ v _) as [expanded|e] eqn:Hexp; [|discriminate].
  destruct (BOOLEAN_STATES !! Py.lower expanded) as [b'|] eqn:Hb; [|discriminate].
  injection Hget as ->.
  assert (Hlit : is_Some (BOOLEAN_STATES !! Py.lower v)).
  { rewrite <- (lookup_represents w seen parser Hrep), lookup_install_key in Hv.
    destruct (parser !! "install"); [|discriminate].
    destruct (key_in parser "install") as [v'|] eqn:H1.
    - injection Hv as ->. by apply (Hbv "install"); [left|].
    - by apply (Hbv "DEFAULT"); [right|]. }
  destruct Hlit as [b0 Hb0].
  rewrite before_get_plain in Hexp by (by eapply boolean_literal_plain).
  injection Hexp as <-. rewrite Hb in Hb0 |- *.
  destruct b; [by rewrite bool_decide_eq_true_2 | by rewrite bool_decide_eq_false_2].
Qed.

(** Passing files after none of which the key reads true. *)
Lemma policy_chain_pass (w : World) (pre : list Path) :
  forall (seen : list Path) (parser : ini) (t : list event),
    represents w seen parser ->
    boolean_valued parser ->
    Forall (fun p => well_formed (config_files w p)) pre ->
    (forall j, 0 < j <= length pre -> reads_true w (seen ++ take j pre) = false) ->
    exists parser',
      represents w (seen ++ pre) parser'
      /\ boolean_valued parser'
      /\ forall rest,
           policy_chain w parser (pre ++ rest) t
           = policy_chain w parser' rest (t ++ map EvReadConfig pre).
Proof.
  induction pre as [|p pre IH]; intros seen parser t Hrep Hbv Hwf Hfalse.
  - exists parser. rewrite !app_nil_r. auto.
  - apply Forall_cons in Hwf as [Hp Hpre].
    destruct (read_represents w seen parser p t Hrep) as (parser' & Hread & Hrep' & Hbv').
    { intros k Hk. rewrite Hk in Hp. exact Hp. }
    specialize (Hbv' Hbv Hp).
    assert (Hnot : reads_true w (seen ++ [p]) = false).
    { apply (Hfalse 1). simpl. lia. }
    destruct (IH (seen ++ [p]) parser' (t ++ [EvReadConfig p]) Hrep' Hbv' Hpre)
      as (parser'' & Hrep'' & Hbv'' & Hchain).
    { intros j Hj. rewrite <- app_assoc. apply (Hfalse (S j)). simpl. lia. }
    exists parser''. rewrite <- app_assoc in Hrep''. split; [exact Hrep''|].
    split; [exact Hbv''|]. intros rest.
    cbn [app policy_chain]. rewrite (bind_Ok _ _ _ _ _ Hread).
    rewrite (bind_Ok _ _ _ _ _ (getboolean_represents w _ parser' _ Hrep' Hbv')).
    rewrite Hnot, Hchain, <- app_assoc. reflexivity.
Qed.

(** The four ways a step of the chain ends. *)
Lemma policy_chain_step_true (w : World) (seen : list Path) (parser : ini)
    (p : Path) (post : list Path) (t : list event) :
  represents w seen parser ->
  boolean_valued parser ->
  well_formed (config_files w p) ->
  reads_true w (seen ++ [p]) = true ->
  policy_chain w parser (p :: post) t = (Ok true, t ++ [EvReadConfig p]).
Proof.
  intros Hrep Hbv Hp Htrue.
  destruct (read_represents w seen parser p t Hrep) as (parser' & Hread & Hrep' & Hbv').
  { intros k Hk. rewrite Hk in Hp. exact Hp. }
  cbn [policy_chain]. rewrite (bind_Ok _ _ _ _ _ Hread).
  rewrite (bind_Ok _ _ _ _ _ (getboolean_represents w _ parser' _ Hrep' (Hbv' Hbv Hp))).
  rewrite Htrue. reflexivity.
Qed.

Lemma policy_chain_step_rejected (w : World) (parser : ini) (p : Path)
    (post : list Path) (k : read_error) (t : list event) :
  config_files w p = Unparsable k ->
  policy_chain w parser (p :: post) t
  = (Raise (read_exception k p), t ++ [EvReadConfig p]).
Proof.
  intros Hfile. cbn [policy_chain].
  unfold ConfigParser_read. unfold bind at 1 2. unfold log. rewrite Hfile.
  reflexivity.
Qed.

Lemma policy_chain_step_not_boolean (w : World) (parser : ini) (p : Path)
    (post : list Path) (doc : ini) (v : string) (t : list event) :
  config_files w p = Parsed doc ->
  key_in doc "install" = Some v ->
  str_contains "%" v = false ->
  BOOLEAN_STATES !! Py.lower v = None ->
  policy_chain w parser (p :: post) t
  = (Raise (ValueError ("Not a boolean: " +:+ v)), t ++ [EvReadConfig p]).
Proof.
  intros Hfile Hkey Hplain Hnone. cbn [policy_chain].
  assert (Hread : ConfigParser_read w parser p t
                  = (Ok (ini_update doc parser), t ++ [EvReadConfig p])).
  { unfold ConfigParser_read, bind, log. rewrite Hfile. reflexivity. }
  rewrite (bind_Ok _ _ _ _ _ Hread).
  assert (Hlookup : ConfigParser_lookup (ini_update doc parser) "install"
                      "break-system-packages" = Some v).
  { rewrite lookup_install_key.
    assert (Hk : key_in (ini_update doc parser) "install" = Some v)
      by (rewrite ini_update_key, Hkey; reflexivity).
    rewrite Hk. unfold key_in in Hk.
    destruct (ini_update doc parser !! "install"); [reflexivity | discriminate]. }
  unfold bind at 1.
  rewrite getboolean_steps, Hlookup, (before_get_plain _ _ _ _ Hplain), Hnone.
  reflexivity.
Qed.

(** The chain returns when the files it gets to are well-formed: at the
    first file after which the key reads true, or at the end of the
    list. *)
Lemma policy_chain_returns (w : World) (todo : list Path) :
  forall (seen : list Path) (parser : ini) (t : list event) (k : nat),
    represents w seen parser ->
    boolean_valued parser ->
    k <= length todo ->
    Forall (fun p => well_formed (config_files w p)) (take k todo) ->
    k = length todo \/ reads_true w (seen ++ take k todo) = true ->
    reads_true w seen = false ->
    exists n,
      n <= k
      /\ policy_chain w parser todo t
         = (Ok (reads_true w (seen ++ take n todo)),
            t ++ map EvReadConfig (take n todo))
      /\ (n = length todo \/ reads_true w (seen ++ take n todo) = true).
Proof.
  induction todo as [|p rest IH]; intros seen parser t k Hrep Hbv Hk Hwf Hend Hseen.
  - exists 0. split; [lia|]. simpl. rewrite !app_nil_r, Hseen. auto.
  - destruct k as [|k].
    { destruct Hend as [Hend|Hend]; [discriminate|].
      simpl in Hend. rewrite app_nil_r in Hend. congruence. }
    simpl in Hwf, Hk. apply Forall_cons in Hwf as [Hp Hrest].
    destruct (read_represents w seen parser p t Hrep) as (parser' & Hread & Hrep' & Hbv').
    { intros k' Hk'. rewrite Hk' in Hp. exact Hp. }
    specialize (Hbv' Hbv Hp).
    cbn [policy_chain]. rewrite (bind_Ok _ _ _ _ _ Hread).
    rewrite (bind_Ok _ _ _ _ _ (getboolean_represents w _ parser' _ Hrep' Hbv')).
    destruct (reads_true w (seen ++ [p])) eqn:Hnow.
    + exists 1. split; [lia|]. change (take 1 (p :: rest)) with [p].
      rewrite Hnow. auto.
    + destruct (IH (seen ++ [p]) parser' (t ++ [EvReadConfig p]) k Hrep' Hbv')
        as (n & Hn & Hchain & Hstop); [lia | exact Hrest | | exact Hnow |].
      { destruct Hend as [Hend|Hend]; [left; simpl in Hend; lia|].
        right. rewrite <- app_assoc. exact Hend. }
      exists (S n). split; [lia|]. rewrite Hchain, <- !app_assoc.
      split; [reflexivity|]. simpl. destruct Hstop as [->|Hstop]; [by left|].
      right. rewrite <- app_assoc in Hstop. exact Hstop.
Qed.

(** ** The policy check *)

Lemma break_system_packages_env_spec (w : World) :
  break_system_packages_env w = true
  <-> exists v, environ w !! "PIP_BREAK_SYSTEM_PACKAGES" = Some v
                /\ Py.lower v ∈ ["yes"; "1"; "true"].
Proof.
  unfold break_system_packages_env.
  destruct (environ w !! "PIP_BREAK_SYSTEM_PACKAGES") as [v|].
  - rewrite contains_true. split; [eauto|]. by intros (v' & [= <-] & H).
  - split; [discriminate|]. by intros (v' & [=] & _).
Qed.

(** What [lower] takes to a code point, code point by code point. *)
Lemma lower_ascii_lowers_to (c : ascii) : c ∈ lowers_to (Py.lower_ascii c).
Proof.
  destruct c as [[] [] [] [] [] [] [] []];
    apply (bool_decide_unpack _); vm_compute; exact I.
Qed.

Lemma lowers_to_lower_ascii (d : ascii) :
  Forall (fun c => Py.lower_ascii c = d) (lowers_to d).
Proof.
  destruct d as [[] [] [] [] [] [] [] []];
    apply (bool_decide_unpack _); vm_compute; exact I.
Qed.

(** [lower] gives [s] on the case variants of [s] and on nothing else. *)
Lemma lower_case_variants (s v : string) :
  Py.lower v = s <-> v ∈ case_variants s.
Proof.
  revert v. induction s as [|d s IH]; intros v.
  - simpl. rewrite list_elem_of_singleton. destruct v; simpl; split; congruence.
  - cbn [case_variants]. rewrite list_elem_of_bind. split.
    + destruct v as [|c v]; simpl; [discriminate|]. intros [= <- Hs].
      exists c. split; [|apply lower_ascii_lowers_to].
      rewrite list_elem_of_bind. exists v. split; [|by apply IH].
      by apply list_elem_of_singleton.
    + intros (c & Hin & Hc). rewrite list_elem_of_bind in Hin.
      destruct Hin as (v' & Hv & Hv'). apply list_elem_of_singleton in Hv as ->.
      simpl. f_equal.
      * pose proof (lowers_to_lower_ascii d) as Hall.
        rewrite Forall_forall in Hall. by apply Hall.
      * by apply IH.
Qed.

(** The values that lower-case to yes, 1 or true, spelt out. *)
Lemma truthy_spellings_spec (v : string) :
  Py.lower v ∈ ["yes"; "1"; "true"] <-> v ∈ truthy_spellings.
Proof.
  change truthy_spellings
    with (case_variants "yes" ++ case_variants "1" ++ case_variants "true").
  rewrite !elem_of_app, !elem_of_cons, elem_of_nil, <- !lower_case_variants.
  tauto.
Qed.

(** The fallback file, read into a parser the loop fell through with. *)
Lemma fallback_lacks (w : World) (parser : ini) (t : list event) :
  ¬ defines_key parser ->
  lacks_key (config_files w (Path_of "/etc/pip.conf")) ->
  (let* pip_config := ConfigParser_read w parser (Path_of "/etc/pip.conf") in
   let* b := ConfigParser_getboolean pip_config "install" "break-system-packages" false in
   ret b) t
  = (Ok false, t ++ [EvReadConfig (Path_of "/etc/pip.conf")]).
Proof.
  intros Hnd Hlk.
  destruct (read_lacks_key w parser _ t Hnd Hlk) as (parser' & Hread & Hnd').
  rewrite (bind_Ok _ _ _ _ _ Hread).
  rewrite (bind_Ok _ _ _ _ _ (getboolean_undefined parser' _ Hnd')).
  reflexivity.
Qed.

(** C7: from Python 3.11 on, when every configuration file the check
    reads is absent or defines no key, [externally_managed_installable]
    returns, and it returns permitted exactly when
    PIP_BREAK_SYSTEM_PACKAGES is set to one of the 25 spellings of
    [yes], [1] and [true] in upper and lower case, which are the values
    that lower-cased are [yes], [1] or [true]: permitted for [1],
    [true], [YES] and [True], denied when the variable is unset, [0],
    [false] or any other value. *)
Theorem override_env_decides (w : World) :
  version_info_lt (sys_version_info w) (3, 11) = false ->
  Forall (fun p => lacks_key (config_files w p)) (config_paths w) ->
  exists b t,
    run (externally_managed_installable w) = (Ok b, t)
    /\ (b = true <->
        exists v, environ w !! "PIP_BREAK_SYSTEM_PACKAGES" = Some v
                  /\ v ∈ ["yes"; "yeS"; "yEs"; "yES"; "Yes"; "YeS"; "YEs"; "YES";
                          "1";
                          "true"; "truE"; "trUe"; "trUE"; "tRue"; "tRuE"; "tRUe";
                          "tRUE"; "True"; "TruE"; "TrUe"; "TrUE"; "TRue"; "TRuE";
                          "TRUe"; "TRUE"])
    /\ (b = true <->
        exists v, environ w !! "PIP_BREAK_SYSTEM_PACKAGES" = Some v
                  /\ Py.lower v ∈ ["yes"; "1"; "true"])
    /\ (environ w !! "PIP_BREAK_SYSTEM_PACKAGES" = Some "1" -> b = true)
    /\ (environ w !! "PIP_BREAK_SYSTEM_PACKAGES" = Some "true" -> b = true)
    /\ (environ w !! "PIP_BREAK_SYSTEM_PACKAGES" = Some "YES" -> b = true)
    /\ (environ w !! "PIP_BREAK_SYSTEM_PACKAGES" = Some "True" -> b = true)
    /\ (environ w !! "PIP_BREAK_SYSTEM_PACKAGES" = None -> b = false)
    /\ (environ w !! "PIP_BREAK_SYSTEM_PACKAGES" = Some "0" -> b = false)
    /\ (environ w !! "PIP_BREAK_SYSTEM_PACKAGES" = Some "false" -> b = false).
Proof.
  intros Hver Hfiles.
  assert (Hb : exists t, run (externally_managed_installable w)
                         = (Ok (break_system_packages_env w), t)).
  { destruct (break_system_packages_env w) eqn:Henv.
    - exists []. unfold run, externally_managed_installable.
      rewrite Hver, Henv. reflexivity.
    - unfold config_paths in Hfiles. apply Forall_app in Hfiles as [Hxdg Hetc].
      rewrite Forall_map in Hxdg. rewrite Forall_singleton in Hetc.
      unfold run. rewrite (externally_managed_installable_loop w [] Hver Henv).
      destruct (xdg_config_loop_lacks w (xdg_dirs w) ∅ [] not_defines_empty Hxdg)
        as (parser & Hloop & Hnd).
      rewrite (bind_Ok _ _ _ _ _ Hloop).
      rewrite (fallback_lacks w parser _ Hnd Hetc). eauto. }
  destruct Hb as [t Hrun]. exists (break_system_packages_env w), t.
  split; [exact Hrun|].
  split.
  { rewrite break_system_packages_env_spec.
    split; intros (v & Hv & Hin); exists v; (split; [exact Hv|]);
      by apply truthy_spellings_spec. }
  split; [apply break_system_packages_env_spec|].
  unfold break_system_packages_env.
  repeat split; intros ->; reflexivity.
Qed.

Lemma override_env_decides_witness :
  (exists t,
      run (externally_managed_installable
             (py312 (<[ "PIP_BREAK_SYSTEM_PACKAGES" := "YES" ]> ros3) no_files))
      = (Ok true, t))
  /\ (exists t,
        run (externally_managed_installable
               (py312 (<[ "PIP_BREAK_SYSTEM_PACKAGES" := "0" ]> ros3) no_files))
        = (Ok false, t)).
Proof.
  split.
  - destruct (override_env_decides
                (py312 (<[ "PIP_BREAK_SYSTEM_PACKAGES" := "YES" ]> ros3) no_files))
      as (b & t & Hrun & _ & _ & _ & _ & Hyes & _).
    + reflexivity.
    + repeat constructor.
    + exists t. rewrite Hrun, (Hyes eq_refl). reflexivity.
  - destruct (override_env_decides
                (py312 (<[ "PIP_BREAK_SYSTEM_PACKAGES" := "0" ]> ros3) no_files))
      as (b & t & Hrun & _ & _ & _ & _ & _ & _ & _ & Hzero & _).
    + reflexivity.
    + repeat constructor.
    + exists t. rewrite Hrun, (Hzero eq_refl). reflexivity.
Defined.

(** The values of the override the spec lists, on Python 3.12 without
    any configuration file. *)
Example override_env_values :
  let check v :=
    (run (externally_managed_installable
            (py312 (<[ "PIP_BREAK_SYSTEM_PACKAGES" := v ]> ros3) no_files))).1 in
  check "1" = Ok true /\ check "true" = Ok true /\ check "YES" = Ok true
  /\ check "0" = Ok false /\ check "false" = Ok false
  /\ (run (externally_managed_installable (py312 ros3 no_files))).1 = Ok false.
Proof. repeat split. Qed.

(** From Python 3.11 on and without the override, a run of the check is
    a run of the chain over the listed files. *)
Lemma policy_check_chain_run (w : World) :
  version_info_lt (sys_version_info w) (3, 11) = false ->
  break_system_packages_env w = false ->
  run (externally_managed_installable w) = policy_chain w ∅ (config_paths w) [].
Proof. intros Hver Henv. by apply externally_managed_installable_chain. Qed.

(** The chain run up to a file of the list, the files before it
    well-formed and the key not reading true after any of them. *)
Lemma policy_chain_prefix (w : World) (pre : list Path) (rest : list Path) :
  Forall (fun p => well_formed (config_files w p)) pre ->
  (forall j, j <= length pre -> reads_true w (take j pre) = false) ->
  exists parser,
    represents w pre parser
    /\ boolean_valued parser
    /\ policy_chain w ∅ (pre ++ rest) [] = policy_chain w parser rest (map EvReadConfig pre).
Proof.
  intros Hwf Hfalse.
  destruct (policy_chain_pass w pre [] ∅ [] (represents_empty w) boolean_valued_empty Hwf)
    as (parser & Hrep & Hbv & Hchain).
  { intros j Hj. apply Hfalse. lia. }
  exists parser. split; [exact Hrep|]. split; [exact Hbv|]. apply Hchain.
Qed.

(** A missing file and an empty file are read alike. *)
Lemma read_missing_as_empty (w : World) (parser : ini) (p : Path) (t : list event) :
  ConfigParser_read (with_missing_as_empty w) parser p t
  = ConfigParser_read w parser p t.
Proof.
  unfold ConfigParser_read, bind, log. cbn [config_files with_missing_as_empty].
  destruct (config_files w p); try reflexivity.
  by rewrite ini_update_empty.
Qed.

Lemma policy_chain_missing_as_empty (w : World) (paths : list Path) :
  forall (parser : ini) (t : list event),
    policy_chain (with_missing_as_empty w) parser paths t
    = policy_chain w parser paths t.
Proof.
  induction paths as [|p rest IH]; intros parser t; [reflexivity|].
  cbn [policy_chain]. unfold bind at 1 3. rewrite read_missing_as_empty.
  destruct (ConfigParser_read w parser p t) as [[parser'|e] t']; [|reflexivity].
  unfold bind.
  destruct (ConfigParser_getboolean _ _ _ _ _) as [[[]|e] t'']; try reflexivity.
  apply IH.
Qed.

(** The reading of a key after one more file. *)
Lemma reads_true_sets_install (w : World) (seen : list Path) (p : Path) (v : string) :
  sets_key (config_files w p) "install" v ->
  reads_true w (seen ++ [p]) = bool_decide (BOOLEAN_STATES !! Py.lower v = Some true).
Proof.
  intros (doc & Hfile & Hkey). unfold reads_true, cumulative_value.
  rewrite install_section_seen_snoc, last_setting_snoc, Hfile. simpl.
  rewrite Hkey. unfold key_in in Hkey.
  destruct (doc !! "install") as [sec|] eqn:Hsec; [|discriminate].
  rewrite bool_decide_eq_true_2 by eauto. by rewrite orb_true_r.
Qed.

Lemma reads_true_missing (w : World) (seen : list Path) (p : Path) :
  config_files w p = NoFile ->
  reads_true w (seen ++ [p]) = reads_true w seen.
Proof.
  intros Hfile. unfold reads_true, cumulative_value.
  rewrite install_section_seen_snoc, !last_setting_snoc, Hfile. simpl.
  by rewrite orb_false_r.
Qed.

(** C3 as stated fails: with an [/etc/pip.conf] that is not INI the
    check raises the parser's error, and with one whose value is no
    boolean it raises [ValueError]. *)
Lemma malformed_config_counterexample :
  run (externally_managed_installable world_unparsable)
  = (Raise (ParsingError (Path_of "/etc/pip.conf")),
     [EvReadConfig (Path_of "/etc/pip.conf")])
  /\ run (externally_managed_installable world_not_boolean)
     = (Raise (ValueError "Not a boolean: maybe"),
        [EvReadConfig (Path_of "/etc/pip.conf")])
  /\ ¬ (forall w : World,
          exists b t, run (externally_managed_installable w) = (Ok b, t)).
Proof.
  split; [reflexivity|]. split; [reflexivity|].
  intros Hclaim. destruct (Hclaim world_unparsable) as (b & t & Hrun).
  discriminate Hrun.
Qed.

(** C3, as the code has it.  (1) A file that cannot be opened makes no
    difference to the check: its run, result and files read, is the run
    with an empty file in its place.  (2) The check returns, having read
    a first part of the list, when the files it gets to are missing or
    well-formed with boolean literals for the key: all the files of the
    list, or the files up to one after which the key reads true, what
    comes after that being anything.  (3) At the first file of the list
    that [read] rejects, the files before it well-formed and the key not
    reading true after any of them, the check raises the exception of
    [read] for that file.  (4) At the first file that sets the key
    under [[install]] to a value without [%] that is no boolean, it
    raises [ValueError].  (5) A value with [%] goes through
    interpolation first: [1%] raises [InterpolationSyntaxError]. *)
Theorem policy_check_total_on_well_formed :
  (forall w : World,
      run (externally_managed_installable (with_missing_as_empty w))
      = run (externally_managed_installable w))
  /\ (forall (w : World) (k : nat),
        k <= length (config_paths w) ->
        Forall (fun p => well_formed (config_files w p)) (take k (config_paths w)) ->
        k = length (config_paths w) \/ reads_true w (take k (config_paths w)) = true ->
        exists b n,
          n <= k
          /\ run (externally_managed_installable w)
             = (Ok b, map EvReadConfig (take n (config_paths w))))
  /\ (forall (w : World) (pre post : list Path) (p : Path) (k : read_error),
        version_info_lt (sys_version_info w) (3, 11) = false ->
        break_system_packages_env w = false ->
        config_paths w = pre ++ p :: post ->
        Forall (fun q => well_formed (config_files w q)) pre ->
        (forall j, j <= length pre -> reads_true w (take j pre) = false) ->
        config_files w p = Unparsable k ->
        run (externally_managed_installable w)
        = (Raise (read_exception k p), map EvReadConfig (pre ++ [p])))
  /\ (forall (w : World) (pre post : list Path) (p : Path) (doc : ini) (v : string),
        version_info_lt (sys_version_info w) (3, 11) = false ->
        break_system_packages_env w = false ->
        config_paths w = pre ++ p :: post ->
        Forall (fun q => well_formed (config_files w q)) pre ->
        (forall j, j <= length pre -> reads_true w (take j pre) = false) ->
        config_files w p = Parsed doc ->
        key_in doc "install" = Some v ->
        str_contains "%" v = false ->
        BOOLEAN_STATES !! Py.lower v = None ->
        run (externally_managed_installable w)
        = (Raise (ValueError ("Not a boolean: " +:+ v)), map EvReadConfig (pre ++ [p])))
  /\ run (externally_managed_installable world_percent_value)
     = (Raise (InterpolationSyntaxError "break-system-packages" "install" false "%"),
        [EvReadConfig (Path_of "/etc/pip.conf")]).
Proof.
  split; [|split; [|split; [|split]]].
  - intros w. unfold run, externally_managed_installable.
    cbn [sys_version_info with_missing_as_empty].
    destruct (version_info_lt (sys_version_info w) (3, 11)) eqn:Hver; [reflexivity|].
    change (break_system_packages_env (with_missing_as_empty w))
      with (break_system_packages_env w).
    destruct (break_system_packages_env w) eqn:Henv; [reflexivity|].
    pose proof (externally_managed_installable_chain w [] Hver Henv) as H1.
    pose proof (externally_managed_installable_chain (with_missing_as_empty w) []
                  Hver Henv) as H2.
    unfold externally_managed_installable in H1, H2.
    cbn [sys_version_info with_missing_as_empty] in H2.
    change (break_system_packages_env (with_missing_as_empty w))
      with (break_system_packages_env w) in H2.
    rewrite Hver, Henv in H1, H2.
    cbn [environ with_missing_as_empty] in H2 |- *.
    rewrite H1, H2. apply policy_chain_missing_as_empty.
  - intros w k Hk Hwf Hend.
    destruct (version_info_lt (sys_version_info w) (3, 11)) eqn:Hver.
    { exists true, 0. split; [lia|]. unfold run, externally_managed_installable.
      rewrite Hver. reflexivity. }
    destruct (break_system_packages_env w) eqn:Henv.
    { exists true, 0. split; [lia|]. unfold run, externally_managed_installable.
      rewrite Hver, Henv. reflexivity. }
    rewrite (policy_check_chain_run w Hver Henv).
    destruct (policy_chain_returns w (config_paths w) [] ∅ [] k
                (represents_empty w) boolean_valued_empty Hk Hwf Hend eq_refl)
      as (n & Hn & Hchain & _).
    exists (reads_true w (take n (config_paths w))), n. auto.
  - intros w pre post p k Hver Henv Hpaths Hwf Hfalse Hfile.
    rewrite (policy_check_chain_run w Hver Henv), Hpaths.
    destruct (policy_chain_prefix w pre (p :: post) Hwf Hfalse)
      as (parser & _ & _ & ->).
    rewrite (policy_chain_step_rejected w parser p post k _ Hfile).
    by rewrite map_app.
  - intros w pre post p doc v Hver Henv Hpaths Hwf Hfalse Hfile Hkey Hplain Hnone.
    rewrite (policy_check_chain_run w Hver Henv), Hpaths.
    destruct (policy_chain_prefix w pre (p :: post) Hwf Hfalse)
      as (parser & _ & _ & ->).
    rewrite (policy_chain_step_not_boolean w parser p post doc v _ Hfile Hkey Hplain Hnone).
    by rewrite map_app.
  - reflexivity.
Qed.

Lemma install_doc_boolean_valued (value : string) :
  is_Some (BOOLEAN_STATES !! Py.lower value) -> boolean_valued (install_doc value).
Proof.
  intros Hbool section v _. unfold key_in, install_doc.
  destruct (decide (section = "install")) as [->|Hne].
  - rewrite lookup_singleton_eq. simpl. rewrite lookup_singleton_eq.
    by intros [= <-].
  - rewrite lookup_singleton_ne by done. discriminate.
Qed.

Lemma policy_check_total_on_well_formed_witness :
  (exists b n,
      n <= 1
      /\ run (externally_managed_installable world_true_then_broken)
         = (Ok b, map EvReadConfig (take n (config_paths world_true_then_broken))))
  /\ run (externally_managed_installable world_true_then_broken)
     = (Ok true, [EvReadConfig (pip_config_file "/a")])
  /\ run (externally_managed_installable world_unparsable)
     = (Raise (read_exception NotParsed (Path_of "/etc/pip.conf")),
        map EvReadConfig ([] ++ [Path_of "/etc/pip.conf"]))
  /\ run (externally_managed_installable world_not_boolean)
     = (Raise (ValueError ("Not a boolean: " +:+ "maybe")),
        map EvReadConfig ([] ++ [Path_of "/etc/pip.conf"])).
Proof.
  destruct policy_check_total_on_well_formed as (_ & Hreturns & Hrejected & Hvalue & _).
  split; [|split; [|split]].
  - apply (Hreturns world_true_then_broken 1).
    + vm_compute. lia.
    + repeat constructor. apply install_doc_boolean_valued. by eexists.
    + right. reflexivity.
  - reflexivity.
  - apply (Hrejected world_unparsable [] [] (Path_of "/etc/pip.conf") NotParsed).
    + reflexivity.
    + reflexivity.
    + reflexivity.
    + constructor.
    + intros j Hj. by destruct j.
    + reflexivity.
  - apply (Hvalue world_not_boolean [] [] (Path_of "/etc/pip.conf")
             (install_doc "maybe") "maybe").
    + reflexivity.
    + reflexivity.
    + reflexivity.
    + constructor.
    + intros j Hj. by destruct j.
    + reflexivity.
    + reflexivity.
    + reflexivity.
    + reflexivity.
Defined.

(** C1 as stated fails: with [/a] before [/b] in XDG_CONFIG_DIRS, the
    file of [/a] setting the key to false and the file of [/b] setting
    it to true, the first file that defines the key says false and the
    check returns permitted. *)
Lemma first_defining_counterexample :
  spec_first_defining_value world_false_then_true (config_paths world_false_then_true)
  = Some "false"
  /\ run (externally_managed_installable world_false_then_true)
     = (Ok true, read_events ["/a"; "/b"])
  /\ ¬ (forall (w : World) (v : string) (b : bool),
          version_info_lt (sys_version_info w) (3, 11) = false ->
          break_system_packages_env w = false ->
          spec_first_defining_value w (config_paths w) = Some v ->
          BOOLEAN_STATES !! Py.lower v = Some b ->
          exists t, run (externally_managed_installable w) = (Ok b, t)).
Proof.
  split; [reflexivity|]. split; [reflexivity|].
  intros Hclaim.
  destruct (Hclaim world_false_then_true "false" false
              eq_refl eq_refl eq_refl eq_refl) as [t Hrun].
  discriminate Hrun.
Qed.

(** C1, as the code has it, for files that are missing or well-formed
    with boolean literals for the key.  The check reads the files of
    the list ([pip/pip.conf] of each directory of XDG_CONFIG_DIRS in
    list order, then [/etc/pip.conf]) into one parser, in which a later
    file replaces what an earlier one set, and looks the key up after
    each.  (1) It returns permitted at the first file after which the
    key reads true, having read the files up to that one and no other:
    the files before it, which may set the key to false, are all read,
    and the files after it are not.  (2) When the key reads true after
    no file, it returns denied, having read every file of the list.
    (3) After a file that sets the key under [[install]] the key reads
    as that file says, whatever the files before it say; (4) a missing
    file leaves the reading as it was. *)
Theorem first_true_directory_decides :
  (forall (w : World) (pre post : list Path) (p : Path),
      version_info_lt (sys_version_info w) (3, 11) = false ->
      break_system_packages_env w = false ->
      config_paths w = pre ++ p :: post ->
      Forall (fun q => well_formed (config_files w q)) (pre ++ [p]) ->
      (forall j, j <= length pre -> reads_true w (take j pre) = false) ->
      reads_true w (pre ++ [p]) = true ->
      run (externally_managed_installable w)
      = (Ok true, map EvReadConfig (pre ++ [p])))
  /\ (forall w : World,
        version_info_lt (sys_version_info w) (3, 11) = false ->
        break_system_packages_env w = false ->
        Forall (fun q => well_formed (config_files w q)) (config_paths w) ->
        (forall j, j <= length (config_paths w) ->
                   reads_true w (take j (config_paths w)) = false) ->
        run (externally_managed_installable w)
        = (Ok false, map EvReadConfig (config_paths w)))
  /\ (forall (w : World) (seen : list Path) (p : Path) (doc : ini) (v : string),
        config_files w p = Parsed doc ->
        key_in doc "install" = Some v ->
        reads_true w (seen ++ [p])
        = bool_decide (BOOLEAN_STATES !! Py.lower v = Some true))
  /\ (forall (w : World) (seen : list Path) (p : Path),
        config_files w p = NoFile ->
        reads_true w (seen ++ [p]) = reads_true w seen).
Proof.
  split; [|split; [|split]].
  - intros w pre post p Hver Henv Hpaths Hwf Hfalse Htrue.
    apply Forall_app in Hwf as [Hpre Hp]. rewrite Forall_singleton in Hp.
    rewrite (policy_check_chain_run w Hver Henv), Hpaths.
    destruct (policy_chain_prefix w pre (p :: post) Hpre Hfalse)
      as (parser & Hrep & Hbv & ->).
    rewrite (policy_chain_step_true w pre parser p post _ Hrep Hbv Hp Htrue).
    by rewrite map_app.
  - intros w Hver Henv Hwf Hfalse.
    rewrite (policy_check_chain_run w Hver Henv).
    destruct (policy_chain_prefix w (config_paths w) [] Hwf Hfalse)
      as (parser & _ & _ & Hchain).
    rewrite app_nil_r in Hchain. rewrite Hchain. reflexivity.
  - intros w seen p doc v Hfile Hkey. apply reads_true_sets_install.
    by exists doc.
  - apply reads_true_missing.
Qed.

Lemma first_true_directory_decides_witness :
  run (externally_managed_installable world_false_then_true)
  = (Ok true, map EvReadConfig ([pip_config_file "/a"] ++ [pip_config_file "/b"]))
  /\ run (externally_managed_installable world_false_then_etc_true)
     = (Ok true, map EvReadConfig ([pip_config_file "/a"] ++ [Path_of "/etc/pip.conf"]))
  /\ run (externally_managed_installable world_all_false)
     = (Ok false, map EvReadConfig (config_paths world_all_false)).
Proof.
  destruct first_true_directory_decides as (Htrue & Hfalse & _).
  split; [|split].
  - apply (Htrue world_false_then_true [pip_config_file "/a"] [Path_of "/etc/pip.conf"]
             (pip_config_file "/b")).
    + reflexivity.
    + reflexivity.
    + reflexivity.
    + repeat constructor; apply install_doc_boolean_valued; by eexists.
    + intros [|[|j]] Hj; [reflexivity | reflexivity | simpl in Hj; lia].
    + reflexivity.
  - apply (Htrue world_false_then_etc_true [pip_config_file "/a"] []
             (Path_of "/etc/pip.conf")).
    + reflexivity.
    + reflexivity.
    + reflexivity.
    + repeat constructor; apply install_doc_boolean_valued; by eexists.
    + intros [|[|j]] Hj; [reflexivity | reflexivity | simpl in Hj; lia].
    + reflexivity.
  - apply (Hfalse world_all_false).
    + reflexivity.
    + reflexivity.
    + repeat constructor; apply install_doc_boolean_valued; by eexists.
    + intros [|[|[|[|j]]]] Hj; reflexivity.
Defined.

(** Values that refer to other options are expanded against the parser
    as it is when the key is looked up.  With [%(x)s] for the key and
    [x = false] in the first file, a second file that sets [x] to true
    makes the check permit after it, and one that sets [x] to a word
    that is no boolean makes it raise there; and an [x] under
    [[DEFAULT]] of a later file does not replace the [x] that an earlier
    file set under [[install]]. *)
Example references_follow_the_parser :
  run (externally_managed_installable (world_reference_then "true"))
  = (Ok true, read_events ["/a"; "/b"])
  /\ run (externally_managed_installable (world_reference_then "maybe"))
     = (Raise (ValueError "Not a boolean: maybe"), read_events ["/a"; "/b"])
  /\ run (externally_managed_installable world_x_false_then_default_true)
     = (Ok false, read_events ["/b"; "/a"] ++ [EvReadConfig (Path_of "/etc/pip.conf")]).
Proof. repeat split. Qed.

(** ** More on the command locator *)

(** The probe never raises: a command that cannot be started counts as
    unavailable. *)
Lemma is_cmd_available_probe (w : World) (cmd : list string) (t : list event) :
  is_cmd_available w cmd t = (Ok (cmd_succeeds w cmd), t ++ [EvPopen cmd STDERR_PIPE]).
Proof.
  unfold is_cmd_available, Popen_communicate, cmd_succeeds.
  unfold try_except, bind, log, ret, raise.
  destruct (popen w cmd STDERR_PIPE); reflexivity.
Qed.

(** X1: with ROS_PYTHON_VERSION set to [v], the locator prefers the
    [pip<v>] executable, then the running interpreter when its major
    version is [v] and pip can be imported, then [python<v> -m pip]; it
    starts one process when one of the first two is taken and two
    otherwise, and the interpreter's own command is returned without
    being probed. *)
Theorem get_pip_command_preference (w : World) (v : string) :
  environ w !! "ROS_PYTHON_VERSION" = Some v ->
  let pip := ["pip" +:+ v] in
  let python := ["python" +:+ v; "-m"; "pip"] in
  run (get_pip_command w)
  = if cmd_succeeds w pip
    then (Ok (Some pip), [EvPopen pip STDERR_PIPE])
    else if bool_decide (v = String (sys_version0 w) EmptyString) && pip_importable w
    then (Ok (Some [sys_executable w; "-m"; "pip"]), [EvPopen pip STDERR_PIPE])
    else if cmd_succeeds w python
    then (Ok (Some python), [EvPopen pip STDERR_PIPE; EvPopen python STDERR_PIPE])
    else (Ok None, [EvPopen pip STDERR_PIPE; EvPopen python STDERR_PIPE]).
Proof.
  intros Hv pip python. unfold run, get_pip_command, environ_item.
  rewrite Hv. unfold or_raise. rewrite bind_ret.
  rewrite (bind_Ok _ _ _ _ _ (is_cmd_available_probe w _ _)).
  fold pip. destruct (cmd_succeeds w pip); [reflexivity|].
  rewrite bind_ret.
  destruct (bool_decide _ && pip_importable w); [reflexivity|].
  rewrite bind_ret.
  rewrite (bind_Ok _ _ _ _ _ (is_cmd_available_probe w _ _)).
  fold python. destruct (cmd_succeeds w python); reflexivity.
Qed.

Lemma get_pip_command_preference_witness :
  run (get_pip_command world_importable)
  = (Ok (Some ["/usr/bin/python3"; "-m"; "pip"]), [EvPopen ["pip3"] STDERR_PIPE])
  /\ run (get_pip_command world_without_pip)
     = (Ok None, [EvPopen ["pip3"] STDERR_PIPE;
                  EvPopen ["python3"; "-m"; "pip"] STDERR_PIPE]).
Proof.
  split.
  - apply (get_pip_command_preference world_importable "3"). reflexivity.
  - apply (get_pip_command_preference world_without_pip "3"). reflexivity.
Defined.

(** X2: with ROS_PYTHON_VERSION set the locator returns and never
    raises, whatever happens to the processes it starts: a probe that
    cannot be started counts as failed.  A command it returns has one
    or three words and is either one it probed and saw exit with status
    0, or the running interpreter with [-m pip], which it returns only
    when ROS_PYTHON_VERSION is the interpreter's major version and pip
    is importable; when it returns [None], both probes have failed; and
    when [pip<v>] cannot be started, it has been tried and is not the
    command returned. *)
Theorem get_pip_command_sound (w : World) (v : string) :
  environ w !! "ROS_PYTHON_VERSION" = Some v ->
  exists r t,
    run (get_pip_command w) = (Ok r, t)
    /\ match r with
       | Some cmd =>
           (length cmd = 1 \/ length cmd = 3)
           /\ ((EvPopen cmd STDERR_PIPE ∈ t /\ cmd_succeeds w cmd = true)
               \/ (cmd = [sys_executable w; "-m"; "pip"]
                   /\ pip_importable w = true
                   /\ v = String (sys_version0 w) EmptyString))
       | None =>
           cmd_succeeds w ["pip" +:+ v] = false
           /\ cmd_succeeds w ["python" +:+ v; "-m"; "pip"] = false
           /\ t = [EvPopen ["pip" +:+ v] STDERR_PIPE;
                   EvPopen ["python" +:+ v; "-m"; "pip"] STDERR_PIPE]
       end
    /\ (popen w ["pip" +:+ v] STDERR_PIPE = SpawnFails ->
        EvPopen ["pip" +:+ v] STDERR_PIPE ∈ t /\ r <> Some ["pip" +:+ v])
    /\ (popen w ["pip" +:+ v] STDERR_PIPE = SpawnFails ->
        popen w ["python" +:+ v; "-m"; "pip"] STDERR_PIPE = SpawnFails ->
        pip_importable w = false ->
        r = None).
Proof.
  intros Hv. unfold run, get_pip_command, environ_item.
  rewrite Hv. unfold or_raise. rewrite bind_ret.
  rewrite (bind_Ok _ _ _ _ _ (is_cmd_available_probe w _ _)).
  destruct (cmd_succeeds w ["pip" +:+ v]) eqn:Hpip.
  { eexists _, _. split; [reflexivity|]. split; [|split].
    - split; [by left|]. left. split; [apply list_elem_of_here | exact Hpip].
    - intros Hfail. unfold cmd_succeeds in Hpip. rewrite Hfail in Hpip. discriminate.
    - intros Hfail. unfold cmd_succeeds in Hpip. rewrite Hfail in Hpip. discriminate. }
  rewrite bind_ret.
  destruct (bool_decide (v = String (sys_version0 w) EmptyString)) eqn:Hmajor;
    [destruct (pip_importable w) eqn:Himp|]; cbn [andb].
  { eexists _, _. split; [reflexivity|]. split; [|split].
    - split; [by right|]. right. apply bool_decide_eq_true in Hmajor. done.
    - intros _. split; [apply list_elem_of_here | discriminate].
    - discriminate. }
  all: rewrite bind_ret;
    rewrite (bind_Ok _ _ _ _ _ (is_cmd_available_probe w _ _));
    destruct (cmd_succeeds w ["python" +:+ v; "-m"; "pip"]) eqn:Hpy;
    (eexists _, _; split; [reflexivity|]; split; [|split]);
    try (intros _; split; [apply list_elem_of_here | discriminate]);
    try (split; [by right|]; left; split;
         [apply list_elem_of_further, list_elem_of_here | exact Hpy]);
    try done;
    intros _ Hfail; unfold cmd_succeeds in Hpy; rewrite Hfail in Hpy; discriminate.
Qed.

Lemma get_pip_command_sound_witness :
  run (get_pip_command world_without_pip)
  = (Ok None, [EvPopen ["pip3"] STDERR_PIPE;
               EvPopen ["python3"; "-m"; "pip"] STDERR_PIPE])
  /\ exists t, run (get_pip_command (py312 ros3 no_files)) = (Ok (Some ["pip3"]), t).
Proof.
  split.
  - destruct (get_pip_command_sound world_without_pip "3" eq_refl)
      as (r & t & Hrun & Hsound & _ & Hnone).
    rewrite Hrun. rewrite (Hnone eq_refl eq_refl eq_refl) in Hsound |- *.
    destruct Hsound as (_ & _ & ->). reflexivity.
  - destruct (get_pip_command_sound (py312 ros3 no_files) "3" eq_refl)
      as (r & t & Hrun & Hsound & _).
    exists t. rewrite Hrun. injection Hrun as <- _. reflexivity.
Defined.

(** ** More on the policy check *)

(** X3: before Python 3.11, and from 3.11 on with a truthy
    PIP_BREAK_SYSTEM_PACKAGES, the policy check returns permitted
    without reading any configuration file: files that are broken or
    say something else make no difference. *)
Theorem policy_check_short_circuit (w : World) :
  version_info_lt (sys_version_info w) (3, 11) = true
  \/ break_system_packages_env w = true ->
  run (externally_managed_installable w) = (Ok true, []).
Proof.
  intros Hshort. unfold run, externally_managed_installable.
  destruct (version_info_lt (sys_version_info w) (3, 11)); [reflexivity|].
  destruct Hshort as [Hver | ->]; [discriminate | reflexivity].
Qed.

Lemma policy_check_short_circuit_witness :
  run (externally_managed_installable world_py310) = (Ok true, [])
  /\ run (externally_managed_installable
            (mkWorld (<[ "PIP_BREAK_SYSTEM_PACKAGES" := "True" ]> ros3) "3" (3, 12)
               "/usr/bin/python3" false popen_pip3 (config_files world_unparsable)))
     = (Ok true, []).
Proof.
  split.
  - apply (policy_check_short_circuit world_py310). left. reflexivity.
  - apply policy_check_short_circuit. right. reflexivity.
Defined.

(** One step of the chain: a file is read and the key is looked up. *)
Lemma read_run (w : World) (parser : ini) (p : Path) (t : list event) :
  exists r,
    ConfigParser_read w parser p t = (r, t ++ [EvReadConfig p])
    /\ match r with
       | Ok parser' =>
           forall section,
             key_in parser' section
             = match config_files w p with
               | Parsed doc =>
                   match key_in doc section with
                   | Some v => Some v
                   | None => key_in parser section
                   end
               | _ => key_in parser section
               end
       | Raise e =>
           exists k, e = read_exception k p /\ config_files w p = Unparsable k
       end.
Proof.
  unfold ConfigParser_read, bind, log.
  destruct (config_files w p) as [|k|doc]; eexists; (split; [reflexivity|]).
  - done.
  - by exists k.
  - intros section. apply ini_update_key.
Qed.

(** The lookup of the key: the value it acts on is the one the parser
    holds under [[install]] or [[DEFAULT]], a boolean literal or a value
    with [%] that interpolation expands. *)
Lemma getboolean_run (parser : ini) (t : list event) :
  exists r,
    ConfigParser_getboolean parser "install" "break-system-packages" false t = (r, t)
    /\ match r with
       | Ok true =>
           exists section v,
             (section = "install" \/ section = "DEFAULT")
             /\ key_in parser section = Some v
             /\ (BOOLEAN_STATES !! Py.lower v = Some true
                 \/ str_contains "%" v = true)
       | Ok false => True
       | Raise e =>
           is_interpolation_error e
           \/ (exists v, e = ValueError ("Not a boolean: " +:+ v)
                         /\ BOOLEAN_STATES !! Py.lower v = None)
       end.
Proof.
  rewrite getboolean_steps, lookup_install_key.
  destruct (parser !! "install"); [|by exists (Ok false)].
  assert (Hvalue : forall section v,
             section = "install" \/ section = "DEFAULT" ->
             key_in parser section = Some v ->
             exists r,
               match before_get "install" "break-system-packages" v
                       (install_options parser) with
               | Ok expanded =>
                   (match BOOLEAN_STATES !! Py.lower expanded with
                    | Some b => Ok b
                    | None => Raise (ValueError ("Not a boolean: " +:+ expanded))
                    end, t)
               | Raise e => (Raise e, t)
               end = (r, t)
               /\ match r with
                  | Ok true =>
                      exists section v,
                        (section = "install" \/ section = "DEFAULT")
                        /\ key_in parser section = Some v
                        /\ (BOOLEAN_STATES !! Py.lower v = Some true
                            \/ str_contains "%" v = true)
                  | Ok false => True
                  | Raise e =>
                      is_interpolation_error e
                      \/ (exists v, e = ValueError ("Not a boolean: " +:+ v)
                                    /\ BOOLEAN_STATES !! Py.lower v = None)
                  end).
  { intros section v Hsec Hkey.
    destruct (str_contains "%" v) eqn:Hpercent.
    - destruct (before_get _ _ v _) as [expanded|e] eqn:Hexp.
      + destruct (BOOLEAN_STATES !! Py.lower expanded) as [[]|] eqn:Hb;
          eexists; (split; [reflexivity|]).
        * exists section, v. auto.
        * exact I.
        * right. eauto.
      + eexists. split; [reflexivity|]. left. by eapply before_get_errors.
    - rewrite (before_get_plain _ _ _ _ Hpercent).
      destruct (BOOLEAN_STATES !! Py.lower v) as [[]|] eqn:Hb;
        eexists; (split; [reflexivity|]).
      + exists section, v. auto.
      + exact I.
      + right. eauto. }
  destruct (key_in parser "install") as [v|] eqn:H1; [by apply (Hvalue "install"); auto|].
  destruct (key_in parser "DEFAULT") as [v|] eqn:H2; [|by exists (Ok false)].
  apply (Hvalue "DEFAULT"); auto.
Qed.

Lemma sourced_empty (w : World) (ps : list Path) : sourced w ps ∅.
Proof.
  intros section v H. unfold key_in in H. rewrite lookup_empty in H.
  discriminate.
Qed.

(** The chain in full: what it returns, what it has read by then, and
    where the values it acts on come from. *)
Lemma policy_chain_run (w : World) (ps : list Path) (todo : list Path) :
  forall (parser : ini) (t : list event),
    sourced w ps parser ->
    (forall p, p ∈ todo -> p ∈ ps) ->
    exists r n,
      policy_chain w parser todo t = (r, t ++ map EvReadConfig (take n todo))
      /\ n <= length todo
      /\ match r with
         | Ok true =>
             exists p section v,
               p ∈ ps /\ (section = "install" \/ section = "DEFAULT")
               /\ sets_key (config_files w p) section v
               /\ (BOOLEAN_STATES !! Py.lower v = Some true
                   \/ str_contains "%" v = true)
         | Ok false => n = length todo
         | Raise e =>
             (exists p k, p ∈ ps /\ config_files w p = Unparsable k
                          /\ e = read_exception k p)
             \/ is_interpolation_error e
             \/ (exists v, e = ValueError ("Not a boolean: " +:+ v)
                           /\ BOOLEAN_STATES !! Py.lower v = None)
         end.
Proof.
  induction todo as [|q rest IH]; intros parser t Hsrc Hps.
  - exists (Ok false), 0. simpl. rewrite app_nil_r. auto.
  - cbn [policy_chain].
    destruct (read_run w parser q t) as (r1 & Hread & Hr1).
    assert (Hq : q ∈ ps) by (apply Hps; apply list_elem_of_here).
    destruct r1 as [parser'|e].
    2: { destruct Hr1 as (k & -> & Hbad). exists (Raise (read_exception k q)), 1.
         rewrite (bind_Raise _ _ _ _ _ Hread). simpl.
         split; [reflexivity|]. split; [lia|]. left. eauto. }
    assert (Hsrc' : sourced w ps parser').
    { intros section v. rewrite Hr1.
      destruct (config_files w q) as [|k|doc] eqn:Hfile; try apply Hsrc.
      destruct (key_in doc section) as [v'|] eqn:Hk; [|apply Hsrc].
      intros [= <-]. eauto. }
    rewrite (bind_Ok _ _ _ _ _ Hread).
    destruct (getboolean_run parser' (t ++ [EvReadConfig q])) as (r2 & Hget & Hr2).
    destruct r2 as [[|]|e].
    + rewrite (bind_Ok _ _ _ _ _ Hget).
      exists (Ok true), 1. simpl.
      split; [reflexivity|]. split; [lia|].
      destruct Hr2 as (section & v & Hsec & Hkey & Htrue).
      destruct (Hsrc' section v Hkey) as (p & doc & Hp & Hfile & Hdoc).
      exists p, section, v. split; [exact Hp|]. split; [exact Hsec|].
      split; [by exists doc | exact Htrue].
    + rewrite (bind_Ok _ _ _ _ _ Hget).
      destruct (IH parser' (t ++ [EvReadConfig q]) Hsrc') as (r & n & Hloop & Hn & Hr).
      { intros p Hp. apply Hps. by apply list_elem_of_further. }
      exists r, (S n). rewrite Hloop, <- app_assoc. simpl.
      split; [reflexivity|]. split; [lia|].
      destruct r as [[|]|e]; [exact Hr | by rewrite Hr | exact Hr].
    + rewrite (bind_Raise _ _ _ _ _ Hget).
      exists (Raise e), 1. simpl. split; [reflexivity|]. split; [lia|].
      right. exact Hr2.
Qed.

(** The policy check in full, from Python 3.11 on and without the
    override. *)
Lemma externally_managed_installable_run (w : World) :
  version_info_lt (sys_version_info w) (3, 11) = false ->
  break_system_packages_env w = false ->
  exists r n,
    run (externally_managed_installable w)
    = (r, map EvReadConfig (take n (config_paths w)))
    /\ n <= length (config_paths w)
    /\ match r with
       | Ok true =>
           exists p section v,
             p ∈ config_paths w /\ (section = "install" \/ section = "DEFAULT")
             /\ sets_key (config_files w p) section v
             /\ (BOOLEAN_STATES !! Py.lower v = Some true
                 \/ str_contains "%" v = true)
       | Ok false => n = length (config_paths w)
       | Raise e => policy_exception w e
       end.
Proof.
  intros Hver Henv. rewrite (policy_check_chain_run w Hver Henv).
  destruct (policy_chain_run w (config_paths w) (config_paths w) ∅ []
              (sourced_empty w _) (fun p Hp => Hp)) as (r & n & Hchain & Hn & Hr).
  exists r, n. split; [exact Hchain|]. split; [exact Hn|].
  destruct r as [[|]|e]; exact Hr.
Qed.


(** X5: from Python 3.11 on and without a truthy override, the policy
    check returns permitted only if one of the configuration files of
    the list sets break-system-packages, under [[install]] or
    [[DEFAULT]], to a value that is a boolean literal for true or that
    contains [%], which interpolation then expands: permission always
    has a source in a file. *)
Theorem policy_check_permission_has_a_source (w : World) (t : list event) :
  version_info_lt (sys_version_info w) (3, 11) = false ->
  break_system_packages_env w = false ->
  run (externally_managed_installable w) = (Ok true, t) ->
  exists p section v,
    p ∈ config_paths w /\ (section = "install" \/ section = "DEFAULT")
    /\ sets_key (config_files w p) section v
    /\ (BOOLEAN_STATES !! Py.lower v = Some true \/ str_contains "%" v = true).
Proof.
  intros Hver Henv Hrun.
  destruct (externally_managed_installable_run w Hver Henv)
    as (r & n & Hrun' & _ & Hr).
  rewrite Hrun in Hrun'. injection Hrun' as <- _. exact Hr.
Qed.

Lemma policy_check_permission_has_a_source_witness :
  (exists p section v,
      p ∈ config_paths world_false_then_true
      /\ (section = "install" \/ section = "DEFAULT")
      /\ sets_key (config_files world_false_then_true p) section v
      /\ (BOOLEAN_STATES !! Py.lower v = Some true \/ str_contains "%" v = true))
  /\ (exists p section v,
        p ∈ config_paths (world_reference_then "true")
        /\ (section = "install" \/ section = "DEFAULT")
        /\ sets_key (config_files (world_reference_then "true") p) section v
        /\ (BOOLEAN_STATES !! Py.lower v = Some true \/ str_contains "%" v = true)).
Proof.
  split.
  - apply (policy_check_permission_has_a_source world_false_then_true
             (read_events ["/a"; "/b"])).
    + reflexivity.
    + reflexivity.
    + reflexivity.
  - apply (policy_check_permission_has_a_source (world_reference_then "true")
             (read_events ["/a"; "/b"])).
    + reflexivity.
    + reflexivity.
    + reflexivity.
Defined.

(** A file of the list that sets the key to a true value under
    [[install]] makes the check permit, wherever it stands, when the
    files up to it are well-formed. *)
Lemma true_file_permits (w : World) (pre post : list Path) (p : Path) :
  version_info_lt (sys_version_info w) (3, 11) = false ->
  break_system_packages_env w = false ->
  config_paths w = pre ++ p :: post ->
  Forall (fun q => well_formed (config_files w q)) (pre ++ [p]) ->
  sets_true (config_files w p) "install" ->
  exists t, run (externally_managed_installable w) = (Ok true, t).
Proof.
  intros Hver Henv Hpaths Hwf (doc & v & Hfile & Hkey & Htrue).
  assert (Hreads : reads_true w (pre ++ [p]) = true).
  { rewrite (reads_true_sets_install w pre p v) by (by exists doc).
    by apply bool_decide_eq_true. }
  assert (Htake : take (S (length pre)) (config_paths w) = pre ++ [p]).
  { rewrite Hpaths.
    change (p :: post) with ([p] ++ post). rewrite app_assoc.
    apply take_app_length'. rewrite length_app. simpl. lia. }
  rewrite (policy_check_chain_run w Hver Henv).
  destruct (policy_chain_returns w (config_paths w) [] ∅ [] (S (length pre))
              (represents_empty w) boolean_valued_empty)
    as (n & Hn & Hchain & Hstop).
  - rewrite Hpaths, length_app. simpl. lia.
  - by rewrite Htake.
  - right. by rewrite Htake.
  - reflexivity.
  - rewrite Hchain.
    destruct Hstop as [Hlen | Hstop]; [|rewrite Hstop; by eexists].
    assert (Hn' : n = S (length pre)).
    { rewrite Hpaths, length_app in Hlen. simpl in Hlen. lia. }
    rewrite Hn', Htake. change ([] ++ (pre ++ [p])) with (pre ++ [p]).
    rewrite Hreads. by eexists.
Qed.

(** X6: from Python 3.11 on and without a truthy override, when every
    configuration file of the list is missing or well-formed with
    boolean literals for the key and none sets the key under
    [[DEFAULT]], the policy check returns, and it returns permitted
    exactly when some file of the list sets break-system-packages to a
    true value under [[install]]: the position of the file in the list
    and what the other files say do not matter. *)
Theorem policy_check_any_true_file (w : World) :
  version_info_lt (sys_version_info w) (3, 11) = false ->
  break_system_packages_env w = false ->
  Forall (fun p => plain (config_files w p)) (config_paths w) ->
  exists b t,
    run (externally_managed_installable w) = (Ok b, t)
    /\ (b = true <->
        exists p, p ∈ config_paths w /\ sets_true (config_files w p) "install").
Proof.
  intros Hver Henv Hplain.
  assert (Hwf : Forall (fun p => well_formed (config_files w p)) (config_paths w)).
  { eapply Forall_impl; [exact Hplain|]. by intros p [? _]. }
  assert (Htotal : exists b t, run (externally_managed_installable w) = (Ok b, t)).
  { rewrite (policy_check_chain_run w Hver Henv).
    destruct (policy_chain_returns w (config_paths w) [] ∅ [] (length (config_paths w))
                (represents_empty w) boolean_valued_empty)
      as (n & _ & Hchain & _); auto.
    - by rewrite take_ge.
    - by eexists _, _. }
  destruct Htotal as (b & t & Hrun). exists b, t. split; [exact Hrun|].
  split.
  - intros ->.
    destruct (externally_managed_installable_run w Hver Henv)
      as (r & n & Hrun' & _ & Hr).
    rewrite Hrun in Hrun'. injection Hrun' as <- _.
    destruct Hr as (p & section & v & Hp & Hsec & (doc & Hfile & Hkey) & Hv).
    rewrite Forall_forall in Hplain. destruct (Hplain p Hp) as [Hbv Hnodef].
    rewrite Hfile in Hbv. simpl in Hbv.
    destruct (Hbv section v Hsec Hkey) as [b Hb].
    destruct Hsec as [-> | ->].
    + exists p. split; [exact Hp|]. exists doc, v.
      split; [exact Hfile|]. split; [exact Hkey|].
      destruct Hv as [Hv|Hv]; [exact Hv|].
      rewrite (boolean_literal_plain v b Hb) in Hv. discriminate.
    + rewrite (Hnodef doc Hfile) in Hkey. discriminate.
  - intros (p & Hp & Hset).
    apply list_elem_of_split in Hp as (pre & post & Hpaths).
    destruct (true_file_permits w pre post p Hver Henv Hpaths) as [t' Hrun'].
    + rewrite Hpaths in Hwf. change (p :: post) with ([p] ++ post) in Hwf.
      rewrite app_assoc in Hwf. by apply Forall_app in Hwf as [Hwf _].
    + exact Hset.
    + rewrite Hrun in Hrun'. by injection Hrun' as ->.
Qed.

Lemma policy_check_any_true_file_witness :
  exists b t,
    run (externally_managed_installable world_false_then_etc_true) = (Ok b, t)
    /\ (b = true <->
        exists p, p ∈ config_paths world_false_then_etc_true
                  /\ sets_true (config_files world_false_then_etc_true p) "install").
Proof.
  apply (policy_check_any_true_file world_false_then_etc_true).
  - reflexivity.
  - reflexivity.
  - repeat constructor; simpl; try (apply install_doc_boolean_valued; by eexists);
      intros doc [= <-]; reflexivity.
Defined.

(** Without an [[install]] section the lookup falls back. *)
Lemma getboolean_no_section (parser : ini) (t : list event) :
  parser !! "install" = None ->
  ConfigParser_getboolean parser "install" "break-system-packages" false t
  = (Ok false, t).
Proof.
  intros Hnone. rewrite getboolean_steps, lookup_install_key, Hnone.
  reflexivity.
Qed.

Lemma read_no_section (w : World) (parser : ini) (p : Path) (t : list event) :
  parser !! "install" = None ->
  lacks_install_section (config_files w p) ->
  exists parser',
    ConfigParser_read w parser p t = (Ok parser', t ++ [EvReadConfig p])
    /\ parser' !! "install" = None.
Proof.
  intros Hnone Hfile. unfold ConfigParser_read, bind, log.
  destruct (config_files w p) as [| |doc]; simpl in Hfile.
  - eauto.
  - contradiction.
  - eexists. split; [reflexivity|].
    unfold ini_update. rewrite lookup_union_with, Hfile, Hnone. reflexivity.
Qed.

Lemma xdg_config_loop_no_section (w : World) (dirs : list string) :
  forall (parser : ini) (t : list event),
    parser !! "install" = None ->
    Forall (fun d => lacks_install_section (config_files w (pip_config_file d))) dirs ->
    exists parser',
      xdg_config_loop w parser dirs t
      = (Ok (Fallthrough parser'), t ++ read_events dirs)
      /\ parser' !! "install" = None.
Proof.
  induction dirs as [|d rest IH]; intros parser t Hnone Hall.
  - exists parser. simpl. rewrite app_nil_r. eauto.
  - apply Forall_cons in Hall as [Hd Hrest].
    destruct (read_no_section w parser (pip_config_file d) t Hnone Hd)
      as (parser' & Hread & Hnone').
    cbn [xdg_config_loop]. rewrite (bind_Ok _ _ _ _ _ Hread).
    rewrite (bind_Ok _ _ _ _ _ (getboolean_no_section parser' _ Hnone')).
    destruct (IH parser' (t ++ [EvReadConfig (pip_config_file d)]) Hnone' Hrest)
      as (parser'' & Hloop & Hnone'').
    exists parser''. rewrite Hloop, <- app_assoc. eauto.
Qed.

(** X7: from Python 3.11 on and without a truthy override, when no
    configuration file of the list has an [[install]] section, the
    policy check reads all of them and returns denied, whatever they
    set under [[DEFAULT]]: a break-system-packages entry under
    [[DEFAULT]] alone never permits. *)
Theorem policy_check_needs_install_section (w : World) :
  version_info_lt (sys_version_info w) (3, 11) = false ->
  break_system_packages_env w = false ->
  Forall (fun p => lacks_install_section (config_files w p)) (config_paths w) ->
  run (externally_managed_installable w)
  = (Ok false, map EvReadConfig (config_paths w)).
Proof.
  intros Hver Henv Hfiles.
  unfold config_paths in *. apply Forall_app in Hfiles as [Hxdg Hetc].
  rewrite Forall_map in Hxdg. rewrite Forall_singleton in Hetc.
  unfold run. rewrite (externally_managed_installable_loop w [] Hver Henv).
  destruct (xdg_config_loop_no_section w (xdg_dirs w) ∅ [] (lookup_empty _) Hxdg)
    as (parser & Hloop & Hnone).
  rewrite (bind_Ok _ _ _ _ _ Hloop).
  destruct (read_no_section w parser (Path_of "/etc/pip.conf")
              ([] ++ read_events (xdg_dirs w)) Hnone Hetc)
    as (parser' & Hread & Hnone').
  rewrite (bind_Ok _ _ _ _ _ Hread).
  rewrite (bind_Ok _ _ _ _ _ (getboolean_no_section parser' _ Hnone')).
  unfold ret, read_events. rewrite map_app, map_map. reflexivity.
Qed.

Lemma policy_check_needs_install_section_witness :
  run (externally_managed_installable world_default_only)
  = (Ok false, map EvReadConfig (config_paths world_default_only)).
Proof.
  apply (policy_check_needs_install_section world_default_only).
  - reflexivity.
  - reflexivity.
  - repeat constructor.
Defined.

(** ** More on the detector *)

Lemma startswith_app (p h r : string) :
  Py.startswith p h = true -> Py.startswith p (h +:+ r) = true.
Proof.
  revert h. induction p as [|a p IH]; intros h; [done|].
  destruct h as [|b h]; simpl; [discriminate|].
  destruct (decide (a = b)); [apply IH | discriminate].
Qed.

(** The first piece of a split is a prefix of the string. *)
Lemma split_go_head_prefix (sep s : string) :
  exists r, s = (Py.split_go sep 0 s).1 +:+ r.
Proof.
  induction s as [|c s IH]; [by exists EmptyString|].
  cbn [Py.split_go].
  destruct (Py.startswith sep (String c s)); [by eexists|].
  destruct (Py.split_go sep 0 s) as [h t]. destruct IH as [r IH].
  exists r. simpl in IH. change (String c s = String c (h +:+ r)).
  by f_equal.
Qed.

(** The first piece of a split does not contain the separator. *)
Lemma split_go_head_no_sep (a : ascii) (sep s : string) :
  str_contains (String a sep) (Py.split_go (String a sep) 0 s).1 = false.
Proof.
  induction s as [|c s IH]; [reflexivity|].
  cbn [Py.split_go].
  destruct (Py.startswith (String a sep) (String c s)) eqn:Hstart; [reflexivity|].
  destruct (split_go_head_prefix (String a sep) s) as [r Hr].
  destruct (Py.split_go (String a sep) 0 s) as [h t]. simpl in *.
  rewrite IH, orb_false_r.
  destruct (decide (a = c)) as [->|]; [|reflexivity].
  destruct (Py.startswith sep h) eqn:Hh; [|reflexivity].
  apply (startswith_app _ _ r) in Hh. rewrite <- Hr in Hh. congruence.
Qed.

Lemma base_name_no_pin (line : string) : str_contains "==" (base_name line) = false.
Proof. apply split_go_head_no_sep. Qed.

(** X8: with an injected output function, a candidate that contains
    the pin marker [==] is never reported, whatever the freeze text
    says: the freeze pass compares candidates with the parts of freeze
    lines before [==], and those contain no [==]. *)
Theorem pip_detect_never_reports_pinned (w : World) (pkgs : list string)
    (f : list string -> string) :
  is_Some (environ w !! "ROS_PYTHON_VERSION") ->
  exists l t,
    run (pip_detect w pkgs (Some f)) = (Ok l, t)
    /\ forall cand, str_contains "==" cand = true -> cand ∉ l.
Proof.
  intros [v Hv].
  destruct (get_pip_command_set w v Hv) as (r & t0 & Hloc & _ & _).
  destruct r as [pip_cmd|].
  - rewrite (pip_detect_injected_run w pkgs pip_cmd f t0 Hloc).
    eexists _, _. split; [reflexivity|].
    intros cand Hpin Hin.
    apply list_elem_of_filter in Hin as [_ Hin].
    apply list_elem_of_fmap in Hin as (line & -> & _).
    rewrite base_name_no_pin in Hpin. discriminate.
  - exists [], t0. split.
    + unfold pip_detect. rewrite run_bind, Hloc. reflexivity.
    + intros cand _ Hin. by apply elem_of_nil in Hin.
Qed.

Lemma pip_detect_never_reports_pinned_witness :
  exists l t,
    run (pip_detect (py312 ros3 no_files) ["foo==1.0"; "qux"]
           (Some (fun _ => freeze_foo_qux))) = (Ok l, t)
    /\ forall cand, str_contains "==" cand = true -> cand ∉ l.
Proof.
  apply (pip_detect_never_reports_pinned (py312 ros3 no_files)).
  exists "3". reflexivity.
Defined.

(** The show loop when every [pip show] can be started. *)
Lemma show_loop_exact (w : World) (pip_cmd : list string) :
  forall (todo ret_list : list string) (t : list event),
    Forall (show_starts w pip_cmd) todo ->
    show_loop w pip_cmd todo ret_list t
    = (Ok (ret_list ++ filter (fun p => show_detects w pip_cmd p = true) todo),
       t ++ map (show_event pip_cmd) todo).
Proof.
  induction todo as [|pkg rest IH]; intros ret_list t Hall.
  - simpl. rewrite !app_nil_r. reflexivity.
  - apply Forall_cons in Hall as [Hpkg Hrest].
    cbn [show_loop]. rewrite split_item0. unfold or_raise. rewrite bind_ret.
    fold (show_command pip_cmd pkg).
    unfold show_starts in Hpkg. rewrite filter_cons.
    destruct (popen w (show_command pip_cmd pkg) STDERR_STDOUT) as [|rc out] eqn:Hpopen;
      [done|].
    assert (Hdet : show_detects w pip_cmd pkg
                   = (rc =? 0)%Z && Py.truthy (Py.strip_bytes out))
      by (unfold show_detects; rewrite Hpopen; reflexivity).
    rewrite (bind_Ok _ _ _ _ _ (Popen_communicate_exits w _ _ rc out t Hpopen)).
    cbn [map]. fold (show_event pip_cmd pkg).
    destruct ((rc =? 0)%Z && Py.truthy (Py.strip_bytes out)).
    + rewrite decide_True by exact Hdet.
      rewrite (IH _ _ Hrest), <- !app_assoc. reflexivity.
    + rewrite decide_False by (rewrite Hdet; discriminate).
      rewrite (IH _ _ Hrest), <- !app_assoc. reflexivity.
Qed.

(** The show loop up to the first [pip show] that cannot be started. *)
Lemma show_loop_spawn_failure (w : World) (pip_cmd : list string)
    (pre post : list string) (pkg : string) :
  forall (ret_list : list string) (t : list event),
    Forall (show_starts w pip_cmd) pre ->
    popen w (show_command pip_cmd pkg) STDERR_STDOUT = SpawnFails ->
    show_loop w pip_cmd (pre ++ pkg :: post) ret_list t
    = (Raise (OSError (show_command pip_cmd pkg)),
       t ++ map (show_event pip_cmd) (pre ++ [pkg])).
Proof.
  induction pre as [|p pre IH]; intros ret_list t Hpre Hfail.
  - cbn [show_loop app]. rewrite split_item0. unfold or_raise. rewrite bind_ret.
    fold (show_command pip_cmd pkg).
    exact (bind_Raise _ _ _ _ _ (Popen_communicate_fails w _ _ t Hfail)).
  - apply Forall_cons in Hpre as [Hp Hpre].
    cbn [show_loop app]. rewrite split_item0. unfold or_raise. rewrite bind_ret.
    fold (show_command pip_cmd p). unfold show_starts in Hp.
    destruct (popen w (show_command pip_cmd p) STDERR_STDOUT) as [|rc out] eqn:Hpopen;
      [done|].
    rewrite (bind_Ok _ _ _ _ _ (Popen_communicate_exits w _ _ rc out t Hpopen)).
    cbn [map]. fold (show_event pip_cmd p).
    destruct ((rc =? 0)%Z && Py.truthy (Py.strip_bytes out));
      rewrite (IH _ _ Hpre Hfail), <- !app_assoc; reflexivity.
Qed.

(** With the production output function, a located pip and a freeze
    that returned text, the detector is the show loop over the
    candidates the freeze pass did not match. *)
Lemma pip_detect_production_steps (w : World) (pkgs pip_cmd : list string)
    (t0 t1 : list event) (out : string) :
  run (get_pip_command w) = (Ok (Some pip_cmd), t0) ->
  read_stdout w (pip_cmd ++ ["freeze"]) t0 = (Ok out, t1) ->
  let matched := filter (fun n => n ∈ pkgs) (map base_name (Py.split NL out)) in
  run (pip_detect w pkgs None)
  = show_loop w pip_cmd (filter (fun p => p ∉ matched) pkgs) matched t1.
Proof.
  intros Hloc Hread matched.
  pose proof (get_pip_command_nonempty w _ _ Hloc) as Hne.
  unfold pip_detect. rewrite run_bind, Hloc.
  destruct pip_cmd as [|c0 cs]; [done|].
  rewrite (bind_Ok _ _ _ _ _ Hread).
  rewrite (bind_Ok _ _ _ _ _ (freeze_loop_run pkgs _ [] _)).
  change ([] ++ filter (fun n => n ∈ pkgs) (map base_name (Py.split NL out)))
    with matched.
  rewrite (list_filter_iff _ (fun p => p ∉ matched))
    by (intros p; unfold Py.contains; by rewrite bool_decide_spec).
  reflexivity.
Qed.

(** X9: with the production output function, a located pip and a
    freeze that returned text, when every [pip show] can be started the
    detector returns the freeze matches followed by the unmatched
    candidates, in candidate order, for which [pip show <name>] exits
    with status 0 and prints more than white space; it starts exactly
    one [pip show] per unmatched candidate, in candidate order, giving
    it the candidate cut at its first [@] and stripped, with standard
    error merged into the output. *)
Theorem pip_detect_show_pass (w : World) (pkgs pip_cmd : list string)
    (t0 t1 : list event) (out : string) :
  run (get_pip_command w) = (Ok (Some pip_cmd), t0) ->
  read_stdout w (pip_cmd ++ ["freeze"]) t0 = (Ok out, t1) ->
  let matched := filter (fun n => n ∈ pkgs) (map base_name (Py.split NL out)) in
  let unmatched := filter (fun p => p ∉ matched) pkgs in
  Forall (show_starts w pip_cmd) unmatched ->
  run (pip_detect w pkgs None)
  = (Ok (matched ++ filter (fun p => show_detects w pip_cmd p = true) unmatched),
     t1 ++ map (show_event pip_cmd) unmatched).
Proof.
  intros Hloc Hread matched unmatched Hstarts.
  rewrite (pip_detect_production_steps w pkgs pip_cmd t0 t1 out Hloc Hread).
  apply show_loop_exact. exact Hstarts.
Qed.

Lemma pip_detect_show_pass_witness :
  run (pip_detect world_shows_bar ["bar @ git+https://example.org/bar"; "foo"; "baz"] None)
  = (Ok ["foo"; "bar @ git+https://example.org/bar"],
     [EvPopen ["pip3"] STDERR_PIPE; EvPopen ["pip3"; "freeze"] STDERR_PIPE;
      EvPopen ["pip3"; "show"; "bar"] STDERR_STDOUT;
      EvPopen ["pip3"; "show"; "baz"] STDERR_STDOUT])
  /\ run (pip_detect world_shows_bar [NBSP +:+ "bar" +:+ NBSP] None)
     = (Ok [NBSP +:+ "bar" +:+ NBSP],
        [EvPopen ["pip3"] STDERR_PIPE; EvPopen ["pip3"; "freeze"] STDERR_PIPE;
         EvPopen ["pip3"; "show"; "bar"] STDERR_STDOUT]).
Proof.
  split.
  - apply (pip_detect_show_pass world_shows_bar
             ["bar @ git+https://example.org/bar"; "foo"; "baz"] ["pip3"]
             [EvPopen ["pip3"] STDERR_PIPE]
             [EvPopen ["pip3"] STDERR_PIPE; EvPopen ["pip3"; "freeze"] STDERR_PIPE]
             freeze_foo_qux).
    + reflexivity.
    + reflexivity.
    + repeat constructor; discriminate.
  - apply (pip_detect_show_pass world_shows_bar [NBSP +:+ "bar" +:+ NBSP] ["pip3"]
             [EvPopen ["pip3"] STDERR_PIPE]
             [EvPopen ["pip3"] STDERR_PIPE; EvPopen ["pip3"; "freeze"] STDERR_PIPE]
             freeze_foo_qux).
    + reflexivity.
    + reflexivity.
    + repeat constructor; discriminate.
Defined.

(** X10: unlike the probe of the locator, the show pass does not catch
    a [pip show] that cannot be started: at the first unmatched
    candidate for which it cannot, the detector raises OSError, having
    started a [pip show] for that candidate and the ones before it;
    the matches found so far are lost. *)
Theorem pip_detect_show_spawn_failure (w : World) (pkgs pip_cmd : list string)
    (t0 t1 : list event) (out : string) (pre post : list string) (pkg : string) :
  run (get_pip_command w) = (Ok (Some pip_cmd), t0) ->
  read_stdout w (pip_cmd ++ ["freeze"]) t0 = (Ok out, t1) ->
  let matched := filter (fun n => n ∈ pkgs) (map base_name (Py.split NL out)) in
  filter (fun p => p ∉ matched) pkgs = pre ++ pkg :: post ->
  Forall (show_starts w pip_cmd) pre ->
  popen w (show_command pip_cmd pkg) STDERR_STDOUT = SpawnFails ->
  run (pip_detect w pkgs None)
  = (Raise (OSError (show_command pip_cmd pkg)),
     t1 ++ map (show_event pip_cmd) (pre ++ [pkg])).
Proof.
  intros Hloc Hread matched Hsplit Hpre Hfail.
  rewrite (pip_detect_production_steps w pkgs pip_cmd t0 t1 out Hloc Hread).
  fold matched. rewrite Hsplit.
  apply show_loop_spawn_failure; assumption.
Qed.

Lemma pip_detect_show_spawn_failure_witness :
  run (pip_detect world_shows_bar ["foo"; "bar"; "gone"; "baz"] None)
  = (Raise (OSError ["pip3"; "show"; "gone"]),
     [EvPopen ["pip3"] STDERR_PIPE; EvPopen ["pip3"; "freeze"] STDERR_PIPE;
      EvPopen ["pip3"; "show"; "bar"] STDERR_STDOUT;
      EvPopen ["pip3"; "show"; "gone"] STDERR_STDOUT]).
Proof.
  apply (pip_detect_show_spawn_failure world_shows_bar
           ["foo"; "bar"; "gone"; "baz"] ["pip3"]
           [EvPopen ["pip3"] STDERR_PIPE]
           [EvPopen ["pip3"] STDERR_PIPE; EvPopen ["pip3"; "freeze"] STDERR_PIPE]
           freeze_foo_qux ["bar"] ["baz"] "gone").
  - reflexivity.
  - reflexivity.
  - reflexivity.
  - repeat constructor; discriminate.
  - reflexivity.
Defined.

Lemma filter_elem_of_nil (l : list string) :
  filter (fun n => n ∈ ([] : list string)) l = [].
Proof.
  induction l as [|x l IH]; [reflexivity|].
  rewrite filter_cons, decide_False by apply not_elem_of_nil. exact IH.
Qed.

(** X11: the detector does not look at whether there are candidates:
    for the empty candidate list it still runs [freeze] (calling the
    injected function, or the production one) and returns the empty
    list, and the show pass starts no process. *)
Theorem pip_detect_no_candidates (w : World) (pip_cmd : list string)
    (t0 : list event) :
  run (get_pip_command w) = (Ok (Some pip_cmd), t0) ->
  (forall f : list string -> string,
      run (pip_detect w [] (Some f))
      = (Ok [], t0 ++ [EvExecFn (pip_cmd ++ ["freeze"])]))
  /\ (forall out t1,
        read_stdout w (pip_cmd ++ ["freeze"]) t0 = (Ok out, t1) ->
        run (pip_detect w [] None) = (Ok [], t1)).
Proof.
  intros Hloc. split.
  - intros f. rewrite (pip_detect_injected_run w [] pip_cmd f t0 Hloc).
    rewrite filter_elem_of_nil. reflexivity.
  - intros out t1 Hread.
    rewrite (pip_detect_production_steps w [] pip_cmd t0 t1 out Hloc Hread).
    cbv zeta. rewrite filter_elem_of_nil. reflexivity.
Qed.

Lemma pip_detect_no_candidates_witness :
  run (pip_detect (py312 ros3 no_files) [] (Some (fun _ => freeze_foo_qux)))
  = (Ok [], [EvPopen ["pip3"] STDERR_PIPE] ++ [EvExecFn (["pip3"] ++ ["freeze"])])
  /\ run (pip_detect (py312 ros3 no_files) [] None)
     = (Ok [], [EvPopen ["pip3"] STDERR_PIPE; EvPopen ["pip3"; "freeze"] STDERR_PIPE]).
Proof.
  destruct (pip_detect_no_candidates (py312 ros3 no_files) ["pip3"]
              [EvPopen ["pip3"] STDERR_PIPE] eq_refl) as [Hinj Hprod].
  split.
  - apply Hinj.
  - apply (Hprod freeze_foo_qux). reflexivity.
Defined.

(** X12: whatever the output function and the world, a list the
    detector returns holds candidates only: it never reports a package
    it was not asked about. *)
Theorem pip_detect_reports_candidates_only (w : World) (pkgs : list string)
    (exec_fn : option (list string -> string)) (l : list string) (t : list event) :
  run (pip_detect w pkgs exec_fn) = (Ok l, t) ->
  l ⊆ pkgs.
Proof.
  destruct (run (get_pip_command w)) as [[[pip_cmd|]|e] t0] eqn:Hloc.
  - destruct exec_fn as [f|].
    + rewrite (pip_detect_injected_run w pkgs pip_cmd f t0 Hloc).
      intros [= <- _] x Hx. apply list_elem_of_filter in Hx. tauto.
    + destruct (read_stdout w (pip_cmd ++ ["freeze"]) t0) as [[out|e] t1] eqn:Hread.
      * rewrite (pip_detect_production_steps w pkgs pip_cmd t0 t1 out Hloc Hread).
        cbv zeta.
        destruct (show_loop_run w pip_cmd
                    (filter (fun p => p ∉ filter (fun n => n ∈ pkgs)
                                            (map base_name (Py.split NL out))) pkgs)
                    (filter (fun n => n ∈ pkgs) (map base_name (Py.split NL out))) t1)
          as [(shown & t' & Hrun & Hsub) | (cmd & t' & Hrun & _)];
          rewrite Hrun; [|discriminate].
        intros [= <- _] x Hx. apply elem_of_app in Hx as [Hx|Hx].
        -- apply list_elem_of_filter in Hx. tauto.
        -- apply (elem_of_sublist _ _ _ Hx) in Hsub.
           apply list_elem_of_filter in Hsub. tauto.
      * pose proof (get_pip_command_nonempty w _ _ Hloc) as Hne.
        unfold pip_detect. rewrite run_bind, Hloc.
        destruct pip_cmd as [|c0 cs]; [done|].
        rewrite (bind_Raise _ _ _ _ _ Hread). discriminate.
  - unfold pip_detect. rewrite run_bind, Hloc.
    intros [= <- _] x Hx. by apply elem_of_nil in Hx.
  - unfold pip_detect. rewrite run_bind, Hloc. discriminate.
Qed.

Lemma pip_detect_reports_candidates_only_witness :
  ["foo"; "bar"] ⊆ ["bar"; "foo"; "baz"].
Proof.
  apply (pip_detect_reports_candidates_only world_shows_bar
           ["bar"; "foo"; "baz"] None ["foo"; "bar"]
           [EvPopen ["pip3"] STDERR_PIPE; EvPopen ["pip3"; "freeze"] STDERR_PIPE;
            EvPopen ["pip3"; "show"; "bar"] STDERR_STDOUT;
            EvPopen ["pip3"; "show"; "baz"] STDERR_STDOUT]).
  reflexivity.
Defined.

(** The name handed to [pip show]. *)

Lemma lstrip_with_fixed (sp : ascii -> bool) (s : string) :
  Py.lstrip_with sp (Py.lstrip_with sp s) = Py.lstrip_with sp s.
Proof.
  induction s as [|c s IH]; [reflexivity|]. simpl.
  destruct (sp c) eqn:Hc; [exact IH|]. simpl. by rewrite Hc.
Qed.

Lemma rstrip_with_fixed (sp : ascii -> bool) (s : string) :
  Py.rstrip_with sp (Py.rstrip_with sp s) = Py.rstrip_with sp s.
Proof.
  induction s as [|c s IH]; [reflexivity|]. simpl.
  destruct (Py.rstrip_with sp s) as [|c' r] eqn:Hr.
  - destruct (sp c) eqn:Hc; [reflexivity|]. simpl. by rewrite Hc.
  - cbn [Py.rstrip_with]. cbn [Py.rstrip_with] in IH. rewrite IH. reflexivity.
Qed.

(** Stripping on the right keeps a first character that is no space. *)
Lemma lstrip_rstrip_with (sp : ascii -> bool) (s : string) :
  Py.lstrip_with sp s = s ->
  Py.lstrip_with sp (Py.rstrip_with sp s) = Py.rstrip_with sp s.
Proof.
  destruct s as [|c s]; [reflexivity|]. simpl.
  destruct (sp c) eqn:Hc.
  - intros Heq. exfalso.
    assert (Hlen : forall x, String.length (Py.lstrip_with sp x) <= String.length x).
    { induction x as [|a x IHx]; simpl; [lia|]. destruct (sp a); simpl; lia. }
    specialize (Hlen s). rewrite Heq in Hlen. simpl in Hlen. lia.
  - intros _. destruct (Py.rstrip_with sp s); simpl; by rewrite Hc.
Qed.

Lemma strip_fixed (s : string) : Py.strip (Py.strip s) = Py.strip s.
Proof.
  unfold Py.strip.
  rewrite (lstrip_rstrip_with Py.isspace (Py.lstrip_with Py.isspace s))
    by apply lstrip_with_fixed.
  apply rstrip_with_fixed.
Qed.

Lemma lstrip_with_no_char (sp : ascii -> bool) (a : ascii) (s : string) :
  str_contains (String a EmptyString) s = false ->
  str_contains (String a EmptyString) (Py.lstrip_with sp s) = false.
Proof.
  induction s as [|c s IH]; [done|].
  intros H. cbn [Py.lstrip_with]. destruct (sp c); [|exact H].
  apply IH. rewrite str_contains_char in H.
  by apply orb_false_iff in H as [_ H].
Qed.

Lemma rstrip_with_no_char (sp : ascii -> bool) (a : ascii) (s : string) :
  str_contains (String a EmptyString) s = false ->
  str_contains (String a EmptyString) (Py.rstrip_with sp s) = false.
Proof.
  induction s as [|c s IH]; [done|].
  intros H. rewrite str_contains_char in H.
  apply orb_false_iff in H as [Hc Hs]. specialize (IH Hs).
  cbn [Py.rstrip_with]. destruct (Py.rstrip_with sp s) as [|c' r].
  - destruct (sp c); [reflexivity|]. by rewrite str_contains_char, Hc.
  - by rewrite str_contains_char, Hc, IH.
Qed.

(** What [lstrip] and [rstrip] cut off is white space, and what they
    leave neither starts nor ends with it. *)
Lemma lstrip_with_cut (sp : ascii -> bool) (s : string) :
  exists ws, s = ws +:+ Py.lstrip_with sp s /\ all_chars sp ws = true.
Proof.
  induction s as [|c s (ws & IH & Hws)]; [by exists EmptyString|].
  cbn [Py.lstrip_with]. destruct (sp c) eqn:Hc; [|by exists EmptyString].
  exists (String c ws). split.
  - change (String c s = String c (ws +:+ Py.lstrip_with sp s)). by f_equal.
  - simpl. by rewrite Hc.
Qed.

Lemma rstrip_with_cut (sp : ascii -> bool) (s : string) :
  exists ws, s = Py.rstrip_with sp s +:+ ws /\ all_chars sp ws = true.
Proof.
  induction s as [|c s (ws & IH & Hws)]; [by exists EmptyString|].
  cbn [Py.rstrip_with]. destruct (Py.rstrip_with sp s) as [|b r].
  - simpl in IH. subst s. destruct (sp c) eqn:Hc.
    + exists (String c ws). split; [reflexivity|]. simpl. by rewrite Hc.
    + by exists ws.
  - exists ws. split; [|exact Hws].
    change (String c s = String c (String b r +:+ ws)). by f_equal.
Qed.

Lemma lstrip_with_first (sp : ascii -> bool) (s : string) (c : ascii) (r : string) :
  Py.lstrip_with sp s = String c r -> sp c = false.
Proof.
  induction s as [|a s IH]; [discriminate|].
  cbn [Py.lstrip_with]. destruct (sp a) eqn:Ha; [exact IH|].
  by intros [= <- _].
Qed.

Lemma rstrip_with_first (sp : ascii -> bool) (s : string) (c : ascii) (r : string) :
  Py.rstrip_with sp s = String c r -> exists r', s = String c r'.
Proof.
  destruct s as [|a s]; [discriminate|]. cbn [Py.rstrip_with].
  destruct (Py.rstrip_with sp s); [destruct (sp a)|]; intros [= <- _]; eauto.
Qed.

Lemma rstrip_with_last (sp : ascii -> bool) (s : string) :
  forall (r : string) (c : ascii),
    Py.rstrip_with sp s = r +:+ String c EmptyString -> sp c = false.
Proof.
  induction s as [|a s IH]; intros r c.
  - destruct r; discriminate.
  - cbn [Py.rstrip_with]. destruct (Py.rstrip_with sp s) as [|b q].
    + destruct (sp a) eqn:Ha; [destruct r; discriminate|].
      destruct r as [|x r]; [by intros [= <-]|].
      destruct r; discriminate.
    + destruct r as [|x r]; [discriminate|].
      intros [= _ Hq]. by apply (IH r c).
Qed.

(** The first piece of a split ends where the string ends or where the
    separator begins. *)
Lemma startswith_prefix (p s : string) :
  Py.startswith p s = true -> exists r, s = p +:+ r.
Proof.
  revert s. induction p as [|a p IH]; intros s; [by exists s|].
  destruct s as [|b s]; simpl; [discriminate|].
  destruct (decide (a = b)) as [->|]; [|discriminate].
  intros H. destruct (IH s H) as [r ->]. by exists r.
Qed.

Lemma split_go_head_cut (sep s : string) :
  exists r,
    s = (Py.split_go sep 0 s).1 +:+ r
    /\ (r = EmptyString \/ exists r', r = sep +:+ r').
Proof.
  induction s as [|c s IH]; [exists EmptyString; auto|].
  cbn [Py.split_go].
  destruct (Py.startswith sep (String c s)) eqn:Hstart.
  - exists (String c s). split; [reflexivity|]. right.
    by apply startswith_prefix.
  - destruct (Py.split_go sep 0 s) as [h t]. destruct IH as (r & IH & Hr).
    exists r. split; [|exact Hr]. simpl in IH.
    change (String c s = String c (h +:+ r)). by f_equal.
Qed.

(** The processes of the show loop: one [pip show] for each candidate
    of a first part of its list. *)
Lemma show_loop_events (w : World) (pip_cmd : list string) :
  forall (todo ret_list : list string) (t : list event) r t',
    show_loop w pip_cmd todo ret_list t = (r, t') ->
    exists n, t' = t ++ map (show_event pip_cmd) (take n todo).
Proof.
  induction todo as [|pkg rest IH]; intros ret_list t r t'.
  - intros [= _ <-]. exists 0. simpl. by rewrite app_nil_r.
  - cbn [show_loop]. rewrite split_item0. unfold or_raise. rewrite bind_ret.
    fold (show_command pip_cmd pkg).
    destruct (popen w (show_command pip_cmd pkg) STDERR_STDOUT) as [|rc out] eqn:Hpopen.
    + rewrite (bind_Raise _ _ _ _ _ (Popen_communicate_fails w _ _ t Hpopen)).
      intros [= _ <-]. by exists 1.
    + rewrite (bind_Ok _ _ _ _ _ (Popen_communicate_exits w _ _ rc out t Hpopen)).
      destruct ((rc =? 0)%Z && Py.truthy (Py.strip_bytes out));
        intros Hrun; destruct (IH _ _ _ _ Hrun) as [n ->];
        exists (S n); by rewrite <- app_assoc.
Qed.

(** The processes the detector starts with standard error merged into
    the output are the [pip show] of its show pass, each for a
    candidate. *)
Lemma pip_detect_show_events (w : World) (pkgs : list string)
    (r : outcome (list string)) (t : list event) (cmd : list string) :
  run (pip_detect w pkgs None) = (r, t) ->
  EvPopen cmd STDERR_STDOUT ∈ t ->
  exists pip_cmd t0 pkg,
    run (get_pip_command w) = (Ok (Some pip_cmd), t0)
    /\ pkg ∈ pkgs
    /\ cmd = show_command pip_cmd pkg.
Proof.
  intros Hrun Hin.
  destruct (run (get_pip_command w)) as [r0 t0] eqn:Hloc.
  pose proof (get_pip_command_events w r0 t0 Hloc) as Hprobes.
  assert (Hnot : forall l, Forall is_probe l -> EvPopen cmd STDERR_STDOUT ∈ l -> False).
  { intros l Hl Hc. rewrite Forall_forall in Hl. exact (Hl _ Hc). }
  unfold pip_detect in Hrun. rewrite run_bind, Hloc in Hrun.
  destruct r0 as [[pip_cmd|]|e].
  - pose proof (get_pip_command_nonempty w _ _ Hloc) as Hne.
    destruct pip_cmd as [|c0 cs]; [done|].
    exists (c0 :: cs), t0.
    unfold read_stdout in Hrun.
    destruct (popen w ((c0 :: cs) ++ ["freeze"]) STDERR_PIPE) as [|rc out] eqn:Hfreeze.
    + rewrite (bind_Raise _ _ _ _ _
                 (bind_Raise _ _ _ _ _ (Popen_communicate_fails w _ _ t0 Hfreeze)))
        in Hrun.
      injection Hrun as _ <-. exfalso.
      apply elem_of_app in Hin as [Hin|Hin]; [by apply (Hnot t0)|].
      apply list_elem_of_singleton in Hin. discriminate.
    + rewrite (bind_Ok _ _ _ _ _
                 (bind_Ok _ _ _ _ _ (Popen_communicate_exits w _ _ rc out t0 Hfreeze)))
        in Hrun.
      rewrite (bind_Ok _ _ _ _ _ (freeze_loop_run pkgs _ [] _)) in Hrun.
      destruct (show_loop_events w _ _ _ _ _ _ Hrun) as [n ->].
      rewrite !elem_of_app in Hin. destruct Hin as [[Hin|Hin]|Hin].
      * exfalso. by apply (Hnot t0).
      * apply list_elem_of_singleton in Hin. discriminate.
      * apply list_elem_of_fmap in Hin as (pkg & Hcmd & Hpkg).
        exists pkg. split; [reflexivity|]. split; [|by injection Hcmd].
        apply elem_of_take in Hpkg as (i & Hi & _).
        apply list_elem_of_lookup_2 in Hi.
        by apply list_elem_of_filter in Hi as [_ Hi].
  - injection Hrun as _ <-. exfalso. by apply (Hnot t0).
  - injection Hrun as _ <-. exfalso. by apply (Hnot t0).
Qed.

(** X13: every process the detector starts with standard error merged
    into the output is a [pip show] of its show pass, [pip_cmd show
    name] for one of the candidates, and the name is never a direct
    reference or padded: the candidate is [head] followed by nothing or
    by [@] and more, [head] contains no [@], and [name] is [head]
    without the white space at its two ends: it neither starts nor ends
    with white space, and what was cut off is white space only. *)
Theorem show_command_name (w : World) (pkgs : list string)
    (r : outcome (list string)) (t : list event) (cmd : list string) :
  run (pip_detect w pkgs None) = (r, t) ->
  EvPopen cmd STDERR_STDOUT ∈ t ->
  exists pip_cmd t0 pkg head rest name before after,
    run (get_pip_command w) = (Ok (Some pip_cmd), t0)
    /\ pkg ∈ pkgs
    /\ cmd = pip_cmd ++ ["show"; name]
    /\ pkg = head +:+ rest
    /\ (rest = EmptyString \/ exists rest', rest = "@" +:+ rest')
    /\ str_contains "@" head = false
    /\ head = before +:+ name +:+ after
    /\ all_chars Py.isspace before = true
    /\ all_chars Py.isspace after = true
    /\ (forall c s, name = String c s -> Py.isspace c = false)
    /\ (forall s c, name = s +:+ String c EmptyString -> Py.isspace c = false)
    /\ str_contains "@" name = false
    /\ Py.strip name = name.
Proof.
  intros Hrun Hin.
  destruct (pip_detect_show_events w pkgs r t cmd Hrun Hin)
    as (pip_cmd & t0 & pkg & Hloc & Hpkg & ->).
  destruct (split_go_head_cut "@" pkg) as (rest & Hcut & Hrest).
  set (head := (Py.split_go "@" 0 pkg).1) in *.
  destruct (lstrip_with_cut Py.isspace head) as (before & Hbefore & Hws1).
  destruct (rstrip_with_cut Py.isspace (Py.lstrip_with Py.isspace head))
    as (after & Hafter & Hws2).
  exists pip_cmd, t0, pkg, head, rest, (Py.strip head), before, after.
  split; [exact Hloc|]. split; [exact Hpkg|]. split; [reflexivity|].
  split; [exact Hcut|]. split; [exact Hrest|].
  split; [apply split_go_head_no_sep|].
  split; [unfold Py.strip; by rewrite <- Hafter|].
  split; [exact Hws1|]. split; [exact Hws2|].
  split; [|split; [|split]].
  - intros c s Hname. unfold Py.strip in Hname.
    destruct (rstrip_with_first _ _ _ _ Hname) as [r' Hr'].
    by apply (lstrip_with_first _ _ _ _ Hr').
  - intros s c Hname. by apply (rstrip_with_last _ _ _ _ Hname).
  - unfold Py.strip. apply rstrip_with_no_char, lstrip_with_no_char.
    apply split_go_head_no_sep.
  - apply strip_fixed.
Qed.

Lemma show_command_name_witness :
  exists pip_cmd t0 pkg head rest name before after,
    run (get_pip_command world_shows_bar) = (Ok (Some pip_cmd), t0)
    /\ pkg ∈ [NBSP +:+ "bar " +:+ "@ git+https://example.org/bar"; "foo"]
    /\ ["pip3"; "show"; "bar"] = pip_cmd ++ ["show"; name]
    /\ pkg = head +:+ rest
    /\ (rest = EmptyString \/ exists rest', rest = "@" +:+ rest')
    /\ str_contains "@" head = false
    /\ head = before +:+ name +:+ after
    /\ all_chars Py.isspace before = true
    /\ all_chars Py.isspace after = true
    /\ (forall c s, name = String c s -> Py.isspace c = false)
    /\ (forall s c, name = s +:+ String c EmptyString -> Py.isspace c = false)
    /\ str_contains "@" name = false
    /\ Py.strip name = name.
Proof.
  apply (show_command_name world_shows_bar
           [NBSP +:+ "bar " +:+ "@ git+https://example.org/bar"; "foo"]
           (Ok ["foo"; NBSP +:+ "bar " +:+ "@ git+https://example.org/bar"])
           [EvPopen ["pip3"] STDERR_PIPE; EvPopen ["pip3"; "freeze"] STDERR_PIPE;
            EvPopen ["pip3"; "show"; "bar"] STDERR_STDOUT]).
  - reflexivity.
  - do 2 apply list_elem_of_further. apply list_elem_of_here.
Defined.

(** ** More on the installer *)

Lemma short_circuit_at (w : World) (t : list event) :
  version_info_lt (sys_version_info w) (3, 11) = true
  \/ break_system_packages_env w = true ->
  externally_managed_installable w t = (Ok true, t).
Proof.
  intros Hshort. unfold externally_managed_installable.
  destruct (version_info_lt (sys_version_info w) (3, 11)); [reflexivity|].
  destruct Hshort as [Hver | ->]; [discriminate | reflexivity].
Qed.

Section InstallerFacts.

Variable packages_to_install :
  PackageManagerInstaller -> World -> list string -> bool -> M (list string).
Variable elevate : PackageManagerInstaller -> list string -> list string.

(** The install commands once pip is located and the policy permits. *)
Lemma get_install_command_run (self : PackageManagerInstaller) (w : World)
    (resolved : list string) (interactive reinstall quiet : bool)
    (pip_cmd : list string) (t0 t1 : list event) :
  run (get_pip_command w) = (Ok (Some pip_cmd), t0) ->
  externally_managed_installable w t0 = (Ok true, t1) ->
  run (get_install_command packages_to_install elevate self w
         resolved interactive reinstall quiet)
  = match packages_to_install self w resolved reinstall t1 with
    | (Ok packages, t2) =>
        (Ok (map (fun p => elevate self (install_tokens pip_cmd quiet reinstall p))
               packages), t2)
    | (Raise e, t2) => (Raise e, t2)
    end.
Proof.
  intros Hloc Hallowed.
  pose proof (get_pip_command_nonempty w _ _ Hloc) as Hne.
  unfold get_install_command. rewrite run_bind, Hloc.
  destruct pip_cmd as [|c0 cs]; [done|].
  rewrite (bind_Ok _ _ _ _ _ Hallowed). cbn [negb].
  unfold bind at 1.
  destruct (packages_to_install self w resolved reinstall t1) as [[packages|e] t2];
    [|reflexivity].
  destruct packages as [|p ps]; [reflexivity|].
  unfold ret. apply (f_equal (fun l => (Ok l, t2))).
  apply map_ext. intros x. f_equal. unfold install_tokens.
  destruct quiet, reinstall; rewrite <- ?app_assoc; reflexivity.
Qed.

(** X14: once pip is located, an exception of the policy check (a
    configuration file that does not parse, a value that is no boolean)
    leaves [get_install_command] as it is, not as InstallFailed, and
    the packages to install are not asked for; an exception of
    [get_packages_to_install] after a permitting check leaves it
    unchanged too. *)
Theorem get_install_command_propagates (self : PackageManagerInstaller)
    (w : World) (resolved : list string) (interactive reinstall quiet : bool)
    (pip_cmd : list string) (t0 : list event) :
  run (get_pip_command w) = (Ok (Some pip_cmd), t0) ->
  (forall e t1,
      externally_managed_installable w t0 = (Raise e, t1) ->
      run (get_install_command packages_to_install elevate self w
             resolved interactive reinstall quiet) = (Raise e, t1))
  /\ (forall e t1 t2,
        externally_managed_installable w t0 = (Ok true, t1) ->
        packages_to_install self w resolved reinstall t1 = (Raise e, t2) ->
        run (get_install_command packages_to_install elevate self w
               resolved interactive reinstall quiet) = (Raise e, t2)).
Proof.
  intros Hloc. split.
  - intros e t1 Hraise.
    pose proof (get_pip_command_nonempty w _ _ Hloc) as Hne.
    unfold get_install_command. rewrite run_bind, Hloc.
    destruct pip_cmd as [|c0 cs]; [done|].
    exact (bind_Raise _ _ _ _ _ Hraise).
  - intros e t1 t2 Hallowed Hraise.
    rewrite (get_install_command_run self w resolved interactive reinstall quiet
               pip_cmd t0 t1 Hloc Hallowed).
    rewrite Hraise. reflexivity.
Qed.

(** X15: before Python 3.11, or with a truthy PIP_BREAK_SYSTEM_PACKAGES,
    [get_install_command] with a located pip reads no configuration
    file and never raises the externally-managed error: it returns the
    install commands for the packages [get_packages_to_install]
    returns, even when the configuration files are broken. *)
Theorem get_install_command_unrestricted (self : PackageManagerInstaller)
    (w : World) (resolved : list string) (interactive reinstall quiet : bool)
    (pip_cmd packages : list string) (t0 t2 : list event) :
  version_info_lt (sys_version_info w) (3, 11) = true
  \/ break_system_packages_env w = true ->
  run (get_pip_command w) = (Ok (Some pip_cmd), t0) ->
  packages_to_install self w resolved reinstall t0 = (Ok packages, t2) ->
  run (get_install_command packages_to_install elevate self w
         resolved interactive reinstall quiet)
  = (Ok (map (fun p => elevate self (install_tokens pip_cmd quiet reinstall p))
           packages), t2).
Proof.
  intros Hshort Hloc Hpkgs.
  rewrite (get_install_command_run self w resolved interactive reinstall quiet
             pip_cmd t0 t0 Hloc (short_circuit_at w t0 Hshort)).
  rewrite Hpkgs. reflexivity.
Qed.

End InstallerFacts.

Lemma get_install_command_propagates_witness :
  run (get_install_command sample_get_packages_to_install sample_elevate_priv
         (mkInstaller true "sudo -H") world_unparsable ["foo"] true false false)
  = (Raise (ParsingError (Path_of "/etc/pip.conf")),
     [EvPopen ["pip3"] STDERR_PIPE; EvReadConfig (Path_of "/etc/pip.conf")]).
Proof.
  apply (proj1 (get_install_command_propagates sample_get_packages_to_install
                  sample_elevate_priv (mkInstaller true "sudo -H") world_unparsable
                  ["foo"] true false false ["pip3"] [EvPopen ["pip3"] STDERR_PIPE]
                  eq_refl)).
  reflexivity.
Defined.

Lemma get_install_command_unrestricted_witness :
  run (get_install_command sample_get_packages_to_install sample_elevate_priv
         (mkInstaller false "sudo -H") world_py310 ["foo"; "bar"] true true false)
  = (Ok [["pip3"; "install"; "-U"; "-I"; "foo"];
         ["pip3"; "install"; "-U"; "-I"; "bar"]],
     [EvPopen ["pip3"] STDERR_PIPE]).
Proof.
  apply (get_install_command_unrestricted sample_get_packages_to_install
           sample_elevate_priv (mkInstaller false "sudo -H") world_py310
           ["foo"; "bar"] true true false ["pip3"] ["foo"; "bar"]
           [EvPopen ["pip3"] STDERR_PIPE] [EvPopen ["pip3"] STDERR_PIPE]).
  - left. reflexivity.
  - reflexivity.
  - reflexivity.
Defined.

(** ** The version report *)

(** X16: [get_version_strings] reports pip first and setuptools
    second, each as name, space, version, and nothing else; it fails
    exactly when one of the two is not installed, naming pip if pip is
    missing (whether or not setuptools is) and setuptools otherwise,
    and never returns a partial list. *)
Theorem get_version_strings_report (installed : gmap string string) :
  (forall l,
      get_version_strings installed = Found l <->
      exists pip_version setuptools_version,
        installed !! "pip" = Some pip_version
        /\ installed !! "setuptools" = Some setuptools_version
        /\ l = ["pip " +:+ pip_version; "setuptools " +:+ setuptools_version])
  /\ (forall name,
        get_version_strings installed = PackageNotFoundError name <->
        (installed !! "pip" = None /\ name = "pip")
        \/ (is_Some (installed !! "pip") /\ installed !! "setuptools" = None
            /\ name = "setuptools")).
Proof.
  unfold get_version_strings, importlib_metadata_version.
  destruct (installed !! "pip") as [pv|], (installed !! "setuptools") as [sv|];
    split; intros x; split; intros H;
    try discriminate; try (injection H as <-);
    try (destruct H as (? & ? & [=] & [=] & ->); subst);
    try (destruct H as [[[=] ->] | ([? [=]] & [=] & ->)]);
    try reflexivity; eauto 10.
  all: try (right; split; [by eexists | done]).
  all: try (left; done).
  all: try (destruct H as [[[=] _] | (_ & [=] & _)]).
Qed.
